(** * The signaling relay of webrtc-video-chat (server, [ws] on port 8080)

    A shallow embedding of the relay script: the registry [users], the
    connection handler with its [onmessage] and [onclose] callbacks,
    [handleMessage], [handleJoin], [sendUpdatedUserList], [getUserList],
    [sendToUser] and [sendToAllUsers].  The script is written against
    JavaScript objects, so the embedding keeps the parts of the language the
    script leans on: property keys are strings obtained by coercion, a missing
    property reads as [undefined], own properties are enumerated in the
    engine's order, and an uncaught [TypeError] or [SyntaxError] leaves the
    handler with every earlier effect in place. *)

From Stdlib Require Import List String Ascii Bool NArith Arith Lia.
Import ListNotations.
Open Scope string_scope.
Set Warnings "-register-all".

(** ** JSON documents and JavaScript values *)

(** What [JSON.parse] builds and what [JSON.stringify] prints.  A number is
    kept as the decimal text that [Number.prototype.toString] gives it: the
    relay never computes with a number, it only coerces one to a property
    key, tests it for truthiness and prints it back. *)
Inductive JSON : Type :=
| JNull
| JBool (b : bool)
| JNum (text : string)
| JStr (s : string)
| JArr (items : list JSON)
| JObj (fields : list (string * JSON)).

(** A value read from a property: [None] is [undefined]. *)
Definition Val : Type := option JSON.

Fixpoint assoc {A : Type} (k : string) (l : list (string * A)) : option A :=
  match l with
  | [] => None
  | (k', v) :: r => if String.eqb k k' then Some v else assoc k r
  end.

Definition has_key {A : Type} (k : string) (l : list (string * A)) : bool :=
  match assoc k l with Some _ => true | None => false end.

(** ToBoolean. *)
Definition truthy (v : Val) : bool :=
  match v with
  | None => false
  | Some JNull => false
  | Some (JBool b) => b
  | Some (JNum t) => negb (String.eqb t "0")
  | Some (JStr s) => negb (String.eqb s "")
  | Some (JArr _) => true
  | Some (JObj _) => true
  end.

(** ToString on a parsed document; [None] is the [TypeError] "Cannot convert
    object to primitive value".  An array prints through
    [Array.prototype.join], which prints [null] as the empty string.  An
    object prints through [Object.prototype.toString] unless it has an own
    [toString] property: a parsed document holds no function, so that
    property is not callable, and the fallback [valueOf] (own and not
    callable, or inherited and returning the object itself) yields no
    primitive. *)
Fixpoint ToString (j : JSON) : option string :=
  match j with
  | JNull => Some "null"
  | JBool true => Some "true"
  | JBool false => Some "false"
  | JNum t => Some t
  | JStr s => Some s
  | JArr items =>
      (fix join (l : list JSON) : option string :=
         match l with
         | [] => Some ""
         | x :: r =>
             match (match x with JNull => Some "" | _ => ToString x end) with
             | None => None
             | Some sx =>
                 match r with
                 | [] => Some sx
                 | _ :: _ =>
                     match join r with
                     | None => None
                     | Some sr => Some (sx ++ "," ++ sr)
                     end
                 end
             end
         end) items
  | JObj fields => if has_key "toString" fields then None else Some "[object Object]"
  end.

(** ToPropertyKey, as applied by [o[v]]. *)
Definition ToPropertyKey (v : Val) : option string :=
  match v with
  | None => Some "undefined"
  | Some j => ToString j
  end.

(** [message.name] for the four names the relay reads ([type], [senderId],
    [recipientId], [userName]); none of them is a property of a built-in
    prototype, so only an object's own fields can answer.  [None] at the
    outer level is the [TypeError] of reading a property of [null]. *)
Definition get_field (message : JSON) (name : string) : option Val :=
  match message with
  | JNull => None
  | JObj fields => Some (assoc name fields)
  | _ => Some None
  end.

(** [JSON.stringify] of an object literal: a property whose value is
    [undefined] is left out of the text. *)
Fixpoint object (props : list (string * Val)) : list (string * JSON) :=
  match props with
  | [] => []
  | (k, Some j) :: r => (k, j) :: object r
  | (_, None) :: r => object r
  end.

(** The texts [Number.prototype.toString] gives the numbers that JSON has
    no numeral for.  [JSON.parse] yields the first two for a numeral too
    large for a double. *)
Definition finite_number (text : string) : bool :=
  negb (String.eqb text "Infinity" || String.eqb text "-Infinity"
        || String.eqb text "NaN").

(** [JSON.stringify] on a document, as the document its text denotes: a
    number without a numeral is printed as [null], everywhere in the
    document; a parsed document holds nothing else that is printed
    otherwise than it was read (no function, no [undefined], no callable
    [toJSON]).  Negative zero, which is printed as [0], is a number whose
    text is [0] here already. *)
Fixpoint JSON_stringify (j : JSON) : JSON :=
  match j with
  | JNum text => if finite_number text then JNum text else JNull
  | JArr items => JArr (map JSON_stringify items)
  | JObj fields => JObj (map (fun p => (fst p, JSON_stringify (snd p))) fields)
  | _ => j
  end.


(** ** Own properties in the engine's order *)

Definition is_digit (c : ascii) : bool :=
  let n := nat_of_ascii c in (48 <=? n)%nat && (n <=? 57)%nat.

Fixpoint digits_value (s : string) (acc : N) : option N :=
  match s with
  | EmptyString => Some acc
  | String c r =>
      if is_digit c
      then digits_value r (10 * acc + N.of_nat (nat_of_ascii c - 48))%N
      else None
  end.

(** An array index is a canonical decimal numeral below [2^32 - 1]. *)
Definition array_index (k : string) : option N :=
  match k with
  | EmptyString => None
  | String c r =>
      if Ascii.eqb c "0" && negb (String.eqb r "") then None
      else match digits_value k 0 with
           | Some n => if (n <? 4294967295)%N then Some n else None
           | None => None
           end
  end.

Section Properties.
Context {A : Type}.

Fixpoint replace (k : string) (v : A) (l : list (string * A)) : list (string * A) :=
  match l with
  | [] => []
  | (k', v') :: r =>
      if String.eqb k k' then (k', v) :: r else (k', v') :: replace k v r
  end.

(** Where a new integer-keyed property goes: before the first property
    that is not integer-keyed or has a larger index. *)
Fixpoint insert_index (n : N) (k : string) (v : A) (l : list (string * A))
  : list (string * A) :=
  match l with
  | [] => [(k, v)]
  | (k', v') :: r =>
      match array_index k' with
      | Some n' =>
          if (n' <? n)%N then (k', v') :: insert_index n k v r
          else (k, v) :: l
      | None => (k, v) :: l
      end
  end.

(** [o[k] = v] on own properties: an existing property keeps its place, a
    new one goes among the integer keys in ascending order or, for any
    other key, to the end. *)
Definition set_own (k : string) (v : A) (l : list (string * A)) : list (string * A) :=
  if has_key k l then replace k v l
  else match array_index k with
       | Some n => insert_index n k v l
       | None => l ++ [(k, v)]
       end.

(** [delete o[k]]. *)
Fixpoint delete_own (k : string) (l : list (string * A)) : list (string * A) :=
  match l with
  | [] => []
  | (k', v') :: r =>
      if String.eqb k k' then delete_own k r else (k', v') :: delete_own k r
  end.

(** [Object.values(o)]. *)
Definition values (l : list (string * A)) : list A := map snd l.
End Properties.

(** ** Identifiers from [uuid.v4()] *)

Definition is_hex (c : ascii) : bool :=
  let n := nat_of_ascii c in
  ((48 <=? n)%nat && (n <=? 57)%nat) || ((97 <=? n)%nat && (n <=? 102)%nat).

Fixpoint hex_group (n : nat) (s : string) : option string :=
  match n, s with
  | O, _ => Some s
  | S n', String c r => if is_hex c then hex_group n' r else None
  | S _, EmptyString => None
  end.

Definition dash (s : string) : option string :=
  match s with
  | String c r => if Ascii.eqb c "-" then Some r else None
  | EmptyString => None
  end.

Definition and_then {A B : Type} (o : option A) (f : A -> option B) : option B :=
  match o with Some a => f a | None => None end.

(** The textual form 8-4-4-4-12 in lower-case hexadecimal. *)
Definition is_uuid (s : string) : bool :=
  match
    and_then (hex_group 8 s) (fun s =>
    and_then (dash s) (fun s =>
    and_then (hex_group 4 s) (fun s =>
    and_then (dash s) (fun s =>
    and_then (hex_group 4 s) (fun s =>
    and_then (dash s) (fun s =>
    and_then (hex_group 4 s) (fun s =>
    and_then (dash s) (fun s =>
    hex_group 12 s))))))))
  with
  | Some EmptyString => true
  | _ => false
  end.

(** The generator is an external collaborator; the relay sees its results
    as strings of that form. *)
Record UUID : Type := { uuid_text : string; uuid_shape : is_uuid uuid_text = true }.

(** ** The relay's state *)

(** A connection handle of the transport. *)
Definition Conn : Type := nat.

(** An entry of [users].  The relay reads three properties of it and no
    other.  [connection] is [None] when the property is missing or holds
    anything but a transport connection: [user.connection.send(...)] raises
    [TypeError] in all those cases alike. *)
Record User : Type := {
  connection : option Conn;
  userId : Val;
  userName : Val
}.

Definition no_user : User :=
  {| connection := None; userId := None; userName := None |}.

Definition with_userName (u : User) (v : Val) : User :=
  {| connection := connection u; userId := userId u; userName := v |}.

(** [users] is an ordinary object: own properties in order, and a prototype.
    The prototype is [Object.prototype] ([users_proto = None]) until a join
    naming [__proto__] replaces it by an object whose one own property is
    [userName] ([users_proto = Some v]).  [sent] is the log of the calls of
    [connection.send], each with the document whose text was sent. *)
Record Relay : Type := {
  users : list (string * User);
  users_proto : option Val;
  sent : list (Conn * JSON)
}.

Definition initial : Relay := {| users := []; users_proto := None; sent := [] |}.

(** ** Handlers run to completion or throw *)

Inductive Exn : Type := TypeError | SyntaxError.

Inductive Completion (A : Type) : Type :=
| Normal (a : A)
| Throw (e : Exn).
Arguments Normal {A} a.
Arguments Throw {A} e.

(** Effects before a [Throw] stay: nothing is rolled back. *)
Definition M (A : Type) : Type := Relay -> Completion A * Relay.

Definition ret {A : Type} (a : A) : M A := fun st => (Normal a, st).

Definition throw {A : Type} (e : Exn) : M A := fun st => (Throw e, st).

Definition bind {A B : Type} (m : M A) (f : A -> M B) : M B :=
  fun st =>
    match m st with
    | (Normal a, st') => f a st'
    | (Throw e, st') => (Throw e, st')
    end.

Declare Scope relay_scope.
Delimit Scope relay_scope with relay.
Notation "x <- m ;; k" := (bind m (fun x => k))
  (at level 61, m at next level, right associativity) : relay_scope.
Notation "m ;; k" := (bind m (fun _ => k))
  (at level 61, right associativity) : relay_scope.
Open Scope relay_scope.

Definition read : M Relay := fun st => (Normal st, st).

Definition or_throw {A : Type} (o : option A) (e : Exn) : M A :=
  match o with Some a => ret a | None => throw e end.

(** [message.name] *)
Definition field (message : JSON) (name : string) : M Val :=
  or_throw (get_field message name) TypeError.

(** The coercion in [o[v]] *)
Definition property_key (v : Val) : M string :=
  or_throw (ToPropertyKey v) TypeError.

(** ** The relay *)

(** The type tags of [message-types.js] that the relay uses. *)
Record MessageTypes : Type := {
  join : string;
  userList : string;
  signalServerConnected : string
}.

(** What [users[k]] evaluates to. *)
Inductive Got : Type :=
| GObj (u : User)   (** an entry, or the prototype object itself *)
| GVal (v : Val)    (** a property inherited from a replaced prototype *)
| GNothing.         (** [undefined], or a method of [Object.prototype] *)

(** The names [Object.prototype] defines; every object literal of the script
    inherits them. *)
Definition Object_prototype_names : list string :=
  [ "constructor"; "__defineGetter__"; "__defineSetter__"; "hasOwnProperty";
    "__lookupGetter__"; "__lookupSetter__"; "isPrototypeOf";
    "propertyIsEnumerable"; "toString"; "valueOf"; "__proto__";
    "toLocaleString" ].

(** What [messageHandlers[key]] holds when it is truthy. *)
Inductive Handler : Type :=
| HandleJoin
| Inherited (name : string).

Section Relay.
Variable messageTypes : MessageTypes.
(** [JSON.parse]; [None] is its [SyntaxError]. *)
Variable JSON_parse : string -> option JSON.

(** [users[k]], read. *)
Definition users_get (k : string) (st : Relay) : Got :=
  match assoc k (users st) with
  | Some u => GObj u
  | None =>
      if String.eqb k "__proto__" then
        GObj (with_userName no_user
                (match users_proto st with Some v => v | None => None end))
      else
        match users_proto st with
        | Some v => if String.eqb k "userName" then GVal v else GNothing
        | None => GNothing
        end
  end.

(** [{...user}] restricted to the three properties an entry is read at.
    A parsed object spreads its own fields, none of which can hold a
    transport connection; strings and arrays spread index properties
    only; [undefined], [null], numbers, booleans and functions spread
    nothing. *)
Definition spread (user : Got) : User :=
  match user with
  | GObj u => u
  | GVal (Some (JObj fields)) =>
      {| connection := None;
         userId := assoc "userId" fields;
         userName := assoc "userName" fields |}
  | _ => no_user
  end.

(** [users[k] = user].  An own property is overwritten where it stands.
    Otherwise the key [__proto__] reaches the setter of [Object.prototype]
    and replaces the prototype of [users]: the one assignment that can name
    it is [handleJoin]'s, and the object it stores there is the spread of
    the previous prototype plus [userName].  Any other key becomes a new
    own property. *)
Definition users_assign (k : string) (user : User) : M unit :=
  fun st =>
    if String.eqb k "__proto__" && negb (has_key k (users st)) then
      (Normal tt, {| users := users st;
                     users_proto := Some (userName user);
                     sent := sent st |})
    else
      (Normal tt, {| users := set_own k user (users st);
                     users_proto := users_proto st;
                     sent := sent st |}).

(** [delete users[k]] for an own or absent key. *)
Definition users_delete (k : string) : M unit :=
  fun st =>
    (Normal tt, {| users := delete_own k (users st);
                   users_proto := users_proto st;
                   sent := sent st |}).

(** [connection.send(JSON.stringify(message))] on an open connection. *)
Definition send (c : Conn) (message : JSON) : M unit :=
  fun st =>
    (Normal tt, {| users := users st;
                   users_proto := users_proto st;
                   sent := sent st ++ [(c, JSON_stringify message)] |}).

(** [user.connection.send(...)] *)
Definition connection_send (user : User) (message : JSON) : M unit :=
  match connection user with
  | Some c => send c message
  | None => throw TypeError
  end.

Definition sendToUser (user : Got) (message : JSON) : M unit :=
  match user with
  | GObj u => connection_send u message
  | GVal _ => throw TypeError
  | GNothing => throw TypeError
  end.

Fixpoint forEach {A : Type} (l : list A) (f : A -> M unit) : M unit :=
  match l with
  | [] => ret tt
  | a :: r => f a ;; forEach r f
  end.

Definition sendToAllUsers (message : JSON) : M unit :=
  st <- read ;;
  forEach (values (users st)) (fun user => connection_send user message).

(** The object literals of [getUserList], before serialisation. *)
Definition getUserList (st : Relay) : list (list (string * Val)) :=
  map (fun user => [("userName", userName user); ("userId", userId user)])
      (values (users st)).

(** The object [{ type: messageTypes.userList, users: getUserList() }],
    without the properties whose value is [undefined]. *)
Definition userListMessage (st : Relay) : JSON :=
  JObj (object
    [("type", Some (JStr (userList messageTypes)));
     ("users", Some (JArr (map (fun o => JObj (object o)) (getUserList st))))]).

Definition sendUpdatedUserList : M unit :=
  st <- read ;;
  sendToAllUsers (userListMessage st).

Definition handleJoin (message : JSON) : M unit :=
  senderId <- field message "senderId" ;;
  k <- property_key senderId ;;
  st <- read ;;
  let user := users_get k st in
  name <- field message "userName" ;;
  users_assign k (with_userName (spread user) name) ;;
  sendUpdatedUserList.

(** [messageHandlers[key]]: the own property [[messageTypes.join]], then
    whatever [Object.prototype] answers. *)
Definition messageHandlers (key : string) : option Handler :=
  if String.eqb key (join messageTypes) then Some HandleJoin
  else if existsb (String.eqb key) Object_prototype_names
       then Some (Inherited key)
       else None.

(** [handler(message)] for an inherited value, called with [this]
    undefined: [toString] and [constructor] return, every other method
    fails to convert [this] to an object, and [__proto__] names an object
    that is not callable.  None of them touches the relay. *)
Definition call_inherited (name : string) : M unit :=
  if String.eqb name "toString" || String.eqb name "constructor"
  then ret tt
  else throw TypeError.

Definition handleMessage (message : JSON) : M unit :=
  type <- field message "type" ;;
  key <- property_key type ;;
  match messageHandlers key with
  | Some HandleJoin => handleJoin message
  | Some (Inherited name) => call_inherited name
  | None =>
      senderId <- field message "senderId" ;;
      if truthy senderId then
        recipientId <- field message "recipientId" ;;
        if truthy recipientId then
          k <- property_key recipientId ;;
          st <- read ;;
          sendToUser (users_get k st) message
        else ret tt
      else ret tt
  end.

(** The connection handler, with the identifier [uuid.v4()] returned. *)
Definition on_connection (c : Conn) (id : UUID) : M unit :=
  let user := {| connection := Some c;
                 userId := Some (JStr (uuid_text id));
                 userName := None |} in
  users_assign (uuid_text id) user ;;
  sendToUser (GObj user)
    (JObj (object
       [("type", Some (JStr (signalServerConnected messageTypes)));
        ("userId", userId user)])).

(** [connection.onmessage] *)
Definition onmessage (data : string) : M unit :=
  message <- or_throw (JSON_parse data) SyntaxError ;;
  handleMessage message.

(** [connection.onclose] of the connection that was given [id]. *)
Definition onclose (id : UUID) : M unit :=
  users_delete (uuid_text id) ;;
  sendUpdatedUserList.

(** The events the server reacts to. *)
Inductive Event : Type :=
| Connection (c : Conn) (id : UUID)
| Message (data : string)
| Close (id : UUID).

Definition handle (ev : Event) : M unit :=
  match ev with
  | Connection c id => on_connection c id
  | Message data => onmessage data
  | Close id => onclose id
  end.

(** Events in sequence, up to the first uncaught exception. *)
Fixpoint run (evs : list Event) : M unit :=
  match evs with
  | [] => ret tt
  | ev :: r => handle ev ;; run r
  end.
End Relay.

(** ** Vocabulary for the statements *)

(** The state with further calls of [connection.send] logged. *)
Definition log (st : Relay) (l : list (Conn * JSON)) : Relay :=
  {| users := users st; users_proto := users_proto st; sent := sent st ++ l |}.

Definition live (u : User) : bool :=
  match connection u with Some _ => true | None => false end.

(** What a [forEach] over [us] sends before it returns or throws: one copy
    per entry, up to the first entry without a connection. *)
Fixpoint deliveries (us : list User) (message : JSON) : list (Conn * JSON) :=
  match us with
  | [] => []
  | u :: r =>
      match connection u with
      | Some c => (c, message) :: deliveries r message
      | None => []
      end
  end.

(** [message.name], with [undefined] for a message that has no properties. *)
Definition peek (message : JSON) (name : string) : Val :=
  match get_field message name with Some v => v | None => None end.

(** The key [messageHandlers] is indexed with. *)
Definition type_key (message : JSON) : option string :=
  and_then (get_field message "type") ToPropertyKey.

(** The entry [users] holds under the key [v] coerces to, if it is an own
    property. *)
Definition entry_of (v : Val) (st : Relay) : option User :=
  and_then (ToPropertyKey v) (fun k => assoc k (users st)).

(** Whether [handleMessage] hands the message to [handleJoin]. *)
Definition dispatches_to_join (messageTypes : MessageTypes) (message : JSON) : bool :=
  match type_key message with
  | Some key =>
      match messageHandlers messageTypes key with
      | Some HandleJoin => true
      | _ => false
      end
  | None => false
  end.

(** The identifiers handed to the connections of a run, in order. *)
Fixpoint connection_ids (evs : list Event) : list string :=
  match evs with
  | [] => []
  | Connection _ id :: r => uuid_text id :: connection_ids r
  | _ :: r => connection_ids r
  end.

(** Whether no connection closes in a run. *)
Fixpoint no_close (evs : list Event) : bool :=
  match evs with
  | [] => true
  | Close _ :: _ => false
  | _ :: r => no_close r
  end.

(** One serialised element of the roster. *)
Definition roster_entry (u : User) : JSON :=
  JSON_stringify (JObj (object [("userName", userName u); ("userId", userId u)])).

Definition roster_entries (st : Relay) : list JSON :=
  map roster_entry (values (users st)).

(** What one run of [sendUpdatedUserList] sends. *)
Definition broadcast (messageTypes : MessageTypes) (st : Relay) : list (Conn * JSON) :=
  deliveries (values (users st)) (JSON_stringify (userListMessage messageTypes st)).

(** What was sent to connection [c], in order. *)
Definition inbox (c : Conn) (st : Relay) : list JSON :=
  map snd (filter (fun p => Nat.eqb (fst p) c) (sent st)).

(** ** A concrete instance *)

Definition demo_types : MessageTypes :=
  {| join := "join"; userList := "userList";
     signalServerConnected := "signalServerConnected" |}.

(** A decoder that agrees with [JSON.parse] on the payloads the examples
    feed it: five documents without string literals, and texts that are not
    JSON. *)
Definition demo_parse (data : string) : option JSON :=
  if String.eqb data "null" then Some JNull
  else if String.eqb data "true" then Some (JBool true)
  else if String.eqb data "0" then Some (JNum "0")
  else if String.eqb data "[]" then Some (JArr [])
  else if String.eqb data "{}" then Some (JObj [])
  else None.

Definition uuid_a : UUID :=
  {| uuid_text := "0a1b2c3d-0000-4000-8000-00000000000a"; uuid_shape := eq_refl |}.

Definition uuid_b : UUID :=
  {| uuid_text := "0a1b2c3d-0000-4000-8000-00000000000b"; uuid_shape := eq_refl |}.

(** An identifier that was never handed out, or whose holder has left. *)
Definition uuid_c : UUID :=
  {| uuid_text := "0a1b2c3d-0000-4000-8000-00000000000c"; uuid_shape := eq_refl |}.

(** Two participants connected, in that order, on connections 1 and 2. *)
Definition two_connected : Relay :=
  snd (run demo_types demo_parse [Connection 1 uuid_a; Connection 2 uuid_b] initial).

(** An opaque signaling envelope from [uuid_a] to the participant [r]. *)
Definition offer_to (r : string) : JSON :=
  JObj [("type", JStr "offer");
        ("senderId", JStr (uuid_text uuid_a));
        ("recipientId", JStr r);
        ("sessionDescription", JStr "v=0")].

(** A join envelope. *)
Definition join_from (s n : string) : JSON :=
  JObj [("type", JStr "join"); ("senderId", JStr s); ("userName", JStr n)].

(** ** The client's side of the handshake *)

(** The part of the client's [state] that [saveUserId], [sendSignalMessage]
    and [sendJoinMessage] touch, and the envelopes handed to
    [_sendSignalMessage] of the signaling connection, in order. *)
Record Client : Type := {
  currentUser_userName : Val;
  currentUser_userId : Val;
  outbox : list (list (string * Val))
}.

(** [state] as the script initialises it. *)
Definition fresh_client : Client :=
  {| currentUser_userName := Some (JStr "");
     currentUser_userId := Some (JStr "");
     outbox := [] |}.

(** [state.currentUser.userName = getUserNameInput()] in [joinCall]. *)
Definition enter_userName (name : string) (cl : Client) : Client :=
  {| currentUser_userName := Some (JStr name);
     currentUser_userId := currentUser_userId cl;
     outbox := outbox cl |}.

(** The handler of the connection-established message.  [userId], like the
    names the relay reads, is no property of a built-in prototype. *)
Definition saveUserId (message : JSON) (cl : Client) : Completion unit * Client :=
  match get_field message "userId" with
  | Some v =>
      (Normal tt, {| currentUser_userName := currentUser_userName cl;
                     currentUser_userId := v;
                     outbox := outbox cl |})
  | None => (Throw TypeError, cl)
  end.

(** [{ senderId: state.currentUser.userId, ...message }]: the properties of
    [message] are copied in their order, a [senderId] among them
    overwriting the first one. *)
Definition stamped (message : list (string * Val)) (cl : Client) : list (string * Val) :=
  fold_left (fun o p => set_own (fst p) (snd p) o) message
            [("senderId", currentUser_userId cl)].

(** [sendSignalMessage(message)]; called without an argument it takes the
    default of its parameter. *)
Definition sendSignalMessage (message : option (list (string * Val))) (cl : Client)
  : Completion unit * Client :=
  let message :=
    match message with
    | Some m => m
    | None => [("recipientId", Some (JStr "")); ("type", Some (JStr ""))]
    end in
  (Normal tt, {| currentUser_userName := currentUser_userName cl;
                 currentUser_userId := currentUser_userId cl;
                 outbox := outbox cl ++ [stamped message cl] |}).

Definition sendJoinMessage (messageTypes : MessageTypes) (cl : Client)
  : Completion unit * Client :=
  sendSignalMessage
    (Some [("type", Some (JStr (join messageTypes)));
           ("userName", currentUser_userName cl)]) cl.

(** ** Vocabulary for the further statements *)

(** An entry as the connection handler makes it and a join leaves it: filed
    under its own userId, with a connection. *)
Definition well_formed_entry (p : string * User) : Prop :=
  userId (snd p) = Some (JStr (fst p)) /\ live (snd p) = true.

(** Every send of [l] goes to the connection of an entry of [st]. *)
Definition to_registered (st : Relay) (l : list (Conn * JSON)) : Prop :=
  forall p, In p l ->
    exists u, In u (values (users st)) /\ connection u = Some (fst p).

(** * Properties *)

Open Scope list_scope.

(** ** Own properties *)

Section PropertyFacts.
Context {A : Type}.
Implicit Types (k : string) (v : A) (l : list (string * A)).

Lemma has_key_assoc k l : has_key k l = false <-> assoc k l = None.
Proof. unfold has_key. destruct (assoc k l); split; congruence. Qed.

Lemma assoc_replace_same k v l :
  assoc k (replace k v l) = match assoc k l with Some _ => Some v | None => None end.
Proof.
  induction l as [|[k' v'] r IH]; cbn; [reflexivity|].
  destruct (String.eqb k k') eqn:E; cbn; rewrite E; auto.
Qed.

Lemma assoc_replace_other k k' v l :
  k' <> k -> assoc k' (replace k v l) = assoc k' l.
Proof.
  intros Hne. induction l as [|[k0 v0] r IH]; cbn; [reflexivity|].
  destruct (String.eqb k k0) eqn:E; cbn.
  - apply String.eqb_eq in E. subst k0.
    apply String.eqb_neq in Hne. rewrite Hne. reflexivity.
  - destruct (String.eqb k' k0); auto.
Qed.

Lemma keys_replace k v l : map fst (replace k v l) = map fst l.
Proof.
  induction l as [|[k' v'] r IH]; cbn; [reflexivity|].
  destruct (String.eqb k k'); cbn; congruence.
Qed.


Lemma assoc_insert_index_same n k v l :
  assoc k l = None -> assoc k (insert_index n k v l) = Some v.
Proof.
  induction l as [|[k' v'] r IH]; cbn; intros H.
  - rewrite String.eqb_refl. reflexivity.
  - destruct (String.eqb k k') eqn:E; [discriminate|].
    destruct (array_index k') as [n'|]; [destruct (n' <? n)%N|]; cbn;
      rewrite ?E, ?String.eqb_refl; auto.
Qed.

Lemma assoc_insert_index_other n k k' v l :
  k' <> k -> assoc k' (insert_index n k v l) = assoc k' l.
Proof.
  intros Hne. apply String.eqb_neq in Hne.
  induction l as [|[k0 v0] r IH]; cbn.
  - rewrite Hne. reflexivity.
  - destruct (array_index k0) as [n'|]; [destruct (n' <? n)%N|]; cbn;
      rewrite ?Hne; try reflexivity.
    destruct (String.eqb k' k0); auto.
Qed.


Lemma assoc_app k l l' :
  assoc k (l ++ l') = match assoc k l with Some v => Some v | None => assoc k l' end.
Proof.
  induction l as [|[k' v'] r IH]; cbn; [reflexivity|].
  destruct (String.eqb k k'); auto.
Qed.

Lemma assoc_set_own_same k v l : assoc k (set_own k v l) = Some v.
Proof.
  unfold set_own, has_key. destruct (assoc k l) eqn:E.
  - rewrite assoc_replace_same, E. reflexivity.
  - destruct (array_index k).
    + apply assoc_insert_index_same, E.
    + rewrite assoc_app, E. cbn. rewrite String.eqb_refl. reflexivity.
Qed.

Lemma assoc_set_own_other k k' v l :
  k' <> k -> assoc k' (set_own k v l) = assoc k' l.
Proof.
  intros Hne. unfold set_own. destruct (has_key k l).
  - apply assoc_replace_other, Hne.
  - destruct (array_index k).
    + apply assoc_insert_index_other, Hne.
    + rewrite assoc_app. cbn. apply String.eqb_neq in Hne. rewrite Hne.
      destruct (assoc k' l); reflexivity.
Qed.

Lemma set_own_present k v l u :
  assoc k l = Some u -> set_own k v l = replace k v l.
Proof. intros H. unfold set_own, has_key. rewrite H. reflexivity. Qed.


Lemma assoc_delete_same k l : assoc k (delete_own k l) = None.
Proof.
  induction l as [|[k' v'] r IH]; cbn; [reflexivity|].
  destruct (String.eqb k k') eqn:E; cbn; rewrite ?E; auto.
Qed.

Lemma assoc_delete_other k k' l :
  k' <> k -> assoc k' (delete_own k l) = assoc k' l.
Proof.
  intros Hne. induction l as [|[k0 v0] r IH]; cbn; [reflexivity|].
  destruct (String.eqb k k0) eqn:E; cbn.
  - apply String.eqb_eq in E. subst k0.
    apply String.eqb_neq in Hne. rewrite Hne. exact IH.
  - destruct (String.eqb k' k0); auto.
Qed.

Lemma delete_own_absent k l : assoc k l = None -> delete_own k l = l.
Proof.
  induction l as [|[k' v'] r IH]; cbn; [reflexivity|].
  destruct (String.eqb k k'); [discriminate|].
  intros H. rewrite IH by exact H. reflexivity.
Qed.

Lemma assoc_In k l v : assoc k l = Some v -> In v (values l).
Proof.
  induction l as [|[k' v'] r IH]; cbn; [discriminate|].
  destruct (String.eqb k k').
  - intros [= ->]. left. reflexivity.
  - intros H. right. apply IH, H.
Qed.
End PropertyFacts.

(** ** Running the handlers *)

Lemma log_nil st : log st [] = st.
Proof. destruct st. unfold log. cbn. rewrite app_nil_r. reflexivity. Qed.

Lemma log_log st l l' : log (log st l) l' = log st (l ++ l').
Proof. unfold log. cbn. rewrite app_assoc. reflexivity. Qed.

Lemma forEach_send us message st :
  forEach us (fun u => connection_send u message) st =
  (if forallb live us then Normal tt else Throw TypeError,
   log st (deliveries us (JSON_stringify message))).
Proof.
  revert st. induction us as [|u r IH]; intros st; cbn.
  - rewrite log_nil. reflexivity.
  - unfold bind, connection_send, live. destruct (connection u) as [c|]; cbn.
    + fold (log st [(c, JSON_stringify message)]). rewrite IH, log_log. reflexivity.
    + rewrite log_nil. reflexivity.
Qed.

Lemma deliveries_length us message :
  forallb live us = true -> List.length (deliveries us message) = List.length us.
Proof.
  induction us as [|u r IH]; cbn; [reflexivity|].
  unfold live at 1. destruct (connection u); cbn; [|discriminate].
  intros H. rewrite IH by exact H. reflexivity.
Qed.

Lemma deliveries_reach us message u c :
  forallb live us = true -> In u us -> connection u = Some c ->
  In (c, message) (deliveries us message).
Proof.
  induction us as [|u' r IH]; cbn; [tauto|].
  unfold live at 1. destruct (connection u') as [c'|] eqn:E; cbn; [|discriminate].
  intros Hall [->|Hin] Hc.
  - left. congruence.
  - right. auto.
Qed.

Lemma deliveries_payload us message p :
  In p (deliveries us message) -> snd p = message.
Proof.
  induction us as [|u r IH]; cbn; [tauto|].
  destruct (connection u); cbn; [|tauto].
  intros [<-|H]; auto.
Qed.

Section RelayFacts.
Variable messageTypes : MessageTypes.
Variable JSON_parse : string -> option JSON.

Lemma sendUpdatedUserList_run st :
  sendUpdatedUserList messageTypes st =
  (if forallb live (values (users st)) then Normal tt else Throw TypeError,
   log st (broadcast messageTypes st)).
Proof.
  unfold sendUpdatedUserList, sendToAllUsers, bind, read, broadcast.
  apply forEach_send.
Qed.

Lemma get_field_peek message name v :
  get_field message name = Some v ->
  forall name', get_field message name' = Some (peek message name').
Proof.
  intros H name'. unfold peek.
  destruct message; cbn in *; try discriminate; reflexivity.
Qed.

Lemma field_run message name v st :
  get_field message name = Some v ->
  forall name', field message name' st = (Normal (peek message name'), st).
Proof.
  intros H name'. unfold field.
  rewrite (get_field_peek _ _ _ H name'). reflexivity.
Qed.

Lemma type_key_inv message key :
  type_key message = Some key ->
  exists type, get_field message "type" = Some type /\ ToPropertyKey type = Some key.
Proof.
  unfold type_key, and_then.
  destruct (get_field message "type") as [type|]; [|discriminate].
  intros H. exists type. auto.
Qed.


(** Reading [users] at a key that is not an own property never yields an
    object with a connection. *)
Lemma sendToUser_not_own k message st :
  assoc k (users st) = None ->
  sendToUser (users_get k st) message st = (Throw TypeError, st).
Proof.
  intros H. unfold users_get. rewrite H.
  destruct (String.eqb k "__proto__"); [reflexivity|].
  destruct (users_proto st); [destruct (String.eqb k "userName")|]; reflexivity.
Qed.
End RelayFacts.

Lemma inbox_log c st l :
  inbox c (log st l) = inbox c st ++ map snd (filter (fun p => Nat.eqb (fst p) c) l).
Proof. unfold inbox, log. cbn. rewrite filter_app, map_app. reflexivity. Qed.

Lemma uuid_not_proto id : String.eqb (uuid_text id) "__proto__" = false.
Proof.
  destruct (String.eqb_spec (uuid_text id) "__proto__") as [E|]; [|reflexivity].
  pose proof (uuid_shape id) as H. rewrite E in H. discriminate H.
Qed.

Lemma not_all_live (us : list User) u :
  In u us -> connection u = None -> forallb live us = false.
Proof.
  intros Hin Hc. destruct (forallb live us) eqn:E; [|reflexivity].
  rewrite forallb_forall in E. specialize (E u Hin).
  unfold live in E. rewrite Hc in E. discriminate.
Qed.

Lemma values_set_own_In {A : Type} k (v v' : A) l :
  In v' (values (set_own k v l)) -> v' = v \/ In v' (values l).
Proof.
  unfold set_own. destruct (has_key k l).
  - induction l as [|[k0 v0] r IH]; cbn; [tauto|].
    destruct (String.eqb k k0); cbn; intuition auto.
  - destruct (array_index k) as [n|].
    + induction l as [|[k0 v0] r IH]; cbn; [intuition auto|].
      destruct (array_index k0) as [n'|]; [destruct (n' <? n)%N|]; cbn;
        intuition auto.
    + unfold values. rewrite map_app, in_app_iff. cbn. intuition auto.
Qed.

Lemma live_set_own k u l :
  live u = true ->
  forallb live (values l) = true ->
  forallb live (values (set_own k u l)) = true.
Proof.
  intros Hu Hl. rewrite forallb_forall in *. intros u' Hin.
  destruct (values_set_own_In _ _ _ _ Hin) as [->|H]; auto.
Qed.

Lemma roster_entry_In k u st :
  assoc k (users st) = Some u -> In (roster_entry u) (roster_entries st).
Proof. intros H. unfold roster_entries. apply in_map, (assoc_In k), H. Qed.

Lemma roster_entries_length st :
  List.length (roster_entries st) = List.length (users st).
Proof. unfold roster_entries, values. rewrite !List.length_map. reflexivity. Qed.

Lemma userListMessage_shape mt st :
  JSON_stringify (userListMessage mt st)
  = JObj [("type", JStr (userList mt)); ("users", JArr (roster_entries st))].
Proof.
  unfold userListMessage, roster_entries, getUserList. cbn.
  rewrite !map_map. reflexivity.
Qed.

Lemma handleJoin_run mt message sid k st :
  get_field message "senderId" = Some sid ->
  ToPropertyKey sid = Some k ->
  let st1 := snd (users_assign k
                    (with_userName (spread (users_get k st))
                                   (peek message "userName")) st) in
  handleJoin mt message st =
  (if forallb live (values (users st1)) then Normal tt else Throw TypeError,
   log st1 (broadcast mt st1)).
Proof.
  intros Hget Hto st1. unfold handleJoin, bind.
  rewrite (field_run message _ _ st Hget "senderId").
  assert (peek message "senderId" = sid) as ->
      by (unfold peek; rewrite Hget; reflexivity).
  unfold property_key. rewrite Hto.
  cbn [or_throw ret read].
  rewrite (field_run message _ _ st Hget "userName").
  assert (users_assign k (with_userName (spread (users_get k st))
                                        (peek message "userName")) st
          = (Normal tt, st1)) as ->.
  { unfold st1, users_assign.
    destruct (String.eqb k "__proto__" && negb (has_key k (users st)));
      reflexivity. }
  apply sendUpdatedUserList_run.
Qed.

(** The registry after a join from a registered sender. *)
Lemma handleJoin_users mt message sid k u st :
  get_field message "senderId" = Some sid ->
  ToPropertyKey sid = Some k ->
  assoc k (users st) = Some u ->
  let st' := snd (handleJoin mt message st) in
  users st' = replace k (with_userName u (peek message "userName")) (users st) /\
  users_proto st' = users_proto st.
Proof.
  intros Hget Hto Hown st'.
  unfold st'. rewrite (handleJoin_run mt message sid k st Hget Hto).
  cbn [snd log users users_proto]. unfold users_assign, has_key, users_get.
  rewrite Hown, andb_false_r. cbn [snd users users_proto spread].
  rewrite (set_own_present k _ _ u Hown). auto.
Qed.

(** A message that is not handed to [handleJoin] leaves the relay as it was
    or adds one send, of the message itself. *)
Lemma handleMessage_not_join mt message st :
  dispatches_to_join mt message = false ->
  snd (handleMessage mt message st) = st \/
  exists c, snd (handleMessage mt message st) = log st [(c, JSON_stringify message)].
Proof.
  unfold dispatches_to_join, type_key, and_then. intros Hd.
  unfold handleMessage, bind, field.
  destruct (get_field message "type") as [type|] eqn:Hget; [|left; reflexivity].
  cbn [or_throw ret]. unfold property_key.
  destruct (ToPropertyKey type) as [key|]; [|left; reflexivity].
  cbn [or_throw ret].
  destruct (messageHandlers mt key) as [[|name]|]; [discriminate| |].
  - left. unfold call_inherited.
    destruct (String.eqb name "toString" || String.eqb name "constructor");
      reflexivity.
  - rewrite (get_field_peek _ _ _ Hget "senderId"). cbn [or_throw ret].
    destruct (truthy (peek message "senderId")); [|left; reflexivity].
    rewrite (get_field_peek _ _ _ Hget "recipientId"). cbn [or_throw ret].
    destruct (truthy (peek message "recipientId")); [|left; reflexivity].
    destruct (ToPropertyKey (peek message "recipientId")) as [k|];
      [|left; reflexivity].
    cbn [or_throw ret read].
    destruct (users_get k st) as [u| |]; try (left; reflexivity).
    cbn [sendToUser]. unfold connection_send.
    destruct (connection u) as [c|]; [|left; reflexivity].
    right. exists c. reflexivity.
Qed.

(** The first branch of [handleMessage]. *)
Lemma handleMessage_join mt message st :
  dispatches_to_join mt message = true ->
  handleMessage mt message st = handleJoin mt message st /\
  get_field message "senderId" = Some (peek message "senderId").
Proof.
  unfold dispatches_to_join, type_key, and_then. intros Hd.
  destruct (get_field message "type") as [type|] eqn:Hget; [|discriminate].
  destruct (ToPropertyKey type) as [key|] eqn:Hto; [|discriminate].
  destruct (messageHandlers mt key) as [[|name]|] eqn:Hh; try discriminate.
  split; [|apply (get_field_peek _ _ _ Hget)].
  unfold handleMessage, bind, field. rewrite Hget. cbn [or_throw ret].
  unfold property_key. rewrite Hto. cbn [or_throw ret]. rewrite Hh.
  reflexivity.
Qed.

(** What any message can do to the registry: nothing, or the one
    assignment of [handleJoin]. *)
Lemma handleMessage_users mt message st :
  let st' := snd (handleMessage mt message st) in
  users st' = users st \/
  exists k0 name,
    users st' = users (snd (users_assign k0
                              (with_userName (spread (users_get k0 st)) name) st)).
Proof.
  cbv zeta.
  destruct (dispatches_to_join mt message) eqn:Hd.
  - destruct (handleMessage_join mt message st Hd) as [-> Hs].
    destruct (ToPropertyKey (peek message "senderId")) as [k0|] eqn:Hto.
    + right. exists k0, (peek message "userName").
      rewrite (handleJoin_run mt message _ k0 st Hs Hto). reflexivity.
    + left. unfold handleJoin, bind, field. rewrite Hs. cbn [or_throw ret].
      unfold property_key. rewrite Hto. reflexivity.
  - left. destruct (handleMessage_not_join mt message st Hd) as [->|[c ->]];
      reflexivity.
Qed.

(** That assignment keeps the userId and the connection of every entry. *)
Lemma users_assign_identity k0 name k u st :
  assoc k (users st) = Some u ->
  exists u',
    assoc k (users (snd (users_assign k0
                           (with_userName (spread (users_get k0 st)) name) st)))
    = Some u' /\
    userId u' = userId u /\ connection u' = connection u.
Proof.
  intros Hown. unfold users_assign.
  destruct (String.eqb k0 "__proto__" && negb (has_key k0 (users st)));
    cbn [snd users].
  - exists u. auto.
  - destruct (String.eqb_spec k k0) as [->|Hne].
    + rewrite assoc_set_own_same. unfold users_get. rewrite Hown.
      exists (with_userName u name). auto.
    + rewrite (assoc_set_own_other k0 k) by exact Hne. exists u. auto.
Qed.

Section Connects.
Variable messageTypes : MessageTypes.
Variable JSON_parse : string -> option JSON.

Lemma on_connection_run c id st :
  on_connection messageTypes c id st =
  (Normal tt,
   {| users := set_own (uuid_text id)
                 {| connection := Some c;
                    userId := Some (JStr (uuid_text id));
                    userName := None |} (users st);
      users_proto := users_proto st;
      sent := sent st ++
        [(c, JObj [("type", JStr (signalServerConnected messageTypes));
                   ("userId", JStr (uuid_text id))])] |}).
Proof.
  unfold on_connection, bind, users_assign. rewrite uuid_not_proto. reflexivity.
Qed.

End Connects.

(** ** Every entry holds a connection *)

Section Invariant.
Variable messageTypes : MessageTypes.
Variable JSON_parse : string -> option JSON.

(** A handler that returns leaves a registry whose entries all hold a
    connection, if it found one: the entry without a connection that a join
    from an unregistered sender creates makes that very handler throw. *)
Lemma handle_keeps_live ev st st' :
  forallb live (values (users st)) = true ->
  handle messageTypes JSON_parse ev st = (Normal tt, st') ->
  forallb live (values (users st')) = true.
Proof.
  intros Hlive. destruct ev as [c id|data|id]; cbn [handle].
  - rewrite on_connection_run. intros [= <-]. cbn [users].
    apply live_set_own; [reflexivity|exact Hlive].
  - unfold onmessage, bind, or_throw.
    destruct (JSON_parse data) as [message|]; [|discriminate].
    cbn [ret].
    destruct (dispatches_to_join messageTypes message) eqn:Hd.
    + destruct (handleMessage_join messageTypes message st Hd) as [-> Hs].
      destruct (ToPropertyKey (peek message "senderId")) as [k0|] eqn:Hto.
      * rewrite (handleJoin_run messageTypes message _ k0 st Hs Hto).
        match goal with
        | |- context [forallb live ?us] =>
            destruct (forallb live us) eqn:E; [|discriminate]
        end.
        intros [= <-]. cbn [log users]. exact E.
      * unfold handleJoin, bind, field. rewrite Hs. cbn [or_throw ret].
        unfold property_key. rewrite Hto. discriminate.
    + intros H.
      destruct (handleMessage_not_join messageTypes message st Hd) as [E|[c E]];
        rewrite H in E; cbn [snd] in E; subst st'; exact Hlive.
  - unfold onclose, bind, users_delete.
    rewrite sendUpdatedUserList_run. cbn [users].
    destruct (forallb live (values (delete_own (uuid_text id) (users st)))) eqn:E;
      [|discriminate].
    intros [= <-]. cbn [log users]. exact E.
Qed.

(** So does every state the relay reaches from the initial one without an
    uncaught exception. *)
Lemma run_keeps_live evs : forall st st',
  forallb live (values (users st)) = true ->
  run messageTypes JSON_parse evs st = (Normal tt, st') ->
  forallb live (values (users st')) = true.
Proof.
  induction evs as [|ev evs IH]; intros st st' Hlive; cbn [run].
  - intros [= <-]. exact Hlive.
  - unfold bind.
    destruct (handle messageTypes JSON_parse ev st) as [[[]|e] st1] eqn:E;
      [|discriminate].
    intros H. apply (IH st1 st'); [|exact H].
    apply (handle_keeps_live ev st st1 Hlive E).
Qed.
End Invariant.

(** ** More on own properties *)

Section MorePropertyFacts.
Context {A : Type}.
Implicit Types (k : string) (v : A) (l : list (string * A)).

Lemma assoc_None_keys k l : assoc k l = None <-> ~ In k (map fst l).
Proof.
  induction l as [|[k' v'] r IH]; cbn; [tauto|].
  destruct (String.eqb_spec k k') as [->|Hne].
  - split; [discriminate|]. intros H. exfalso. apply H. left. reflexivity.
  - rewrite IH. split.
    + intros H [E|Hin]; [congruence|tauto].
    + intros H Hin. apply H. right. exact Hin.
Qed.

Lemma keys_insert_index n k v l k' :
  In k' (map fst (insert_index n k v l)) <-> k' = k \/ In k' (map fst l).
Proof.
  induction l as [|[k0 v0] r IH]; cbn; [intuition auto|].
  destruct (array_index k0) as [n'|]; [destruct (n' <? n)%N|]; cbn;
    rewrite ?IH; intuition auto.
Qed.

Lemma NoDup_insert_index n k v l :
  ~ In k (map fst l) -> NoDup (map fst l) ->
  NoDup (map fst (insert_index n k v l)).
Proof.
  induction l as [|[k0 v0] r IH]; cbn; intros Hk Hnd.
  - constructor; [tauto|constructor].
  - inversion Hnd as [|? ? Hk0 Hr]; subst.
    destruct (array_index k0) as [n'|]; [destruct (n' <? n)%N|]; cbn.
    + constructor.
      * rewrite keys_insert_index. intuition auto.
      * apply IH; tauto.
    + constructor; [cbn; tauto|exact Hnd].
    + constructor; [cbn; tauto|exact Hnd].
Qed.

Lemma NoDup_set_own k v l :
  NoDup (map fst l) -> NoDup (map fst (set_own k v l)).
Proof.
  intros Hnd. unfold set_own. destruct (has_key k l) eqn:E.
  - rewrite keys_replace. exact Hnd.
  - apply has_key_assoc, assoc_None_keys in E.
    destruct (array_index k) as [n|].
    + apply NoDup_insert_index; assumption.
    + rewrite map_app. cbn. apply NoDup_app.
      * exact Hnd.
      * constructor; [tauto|constructor].
      * intros x Hx [<-|[]]. exact (E Hx).
Qed.

Lemma keys_delete_own k l :
  map fst (delete_own k l) = filter (fun k' => negb (String.eqb k k')) (map fst l).
Proof.
  induction l as [|[k0 v0] r IH]; cbn; [reflexivity|].
  destruct (String.eqb k k0); cbn; congruence.
Qed.

Lemma NoDup_delete_own k l :
  NoDup (map fst l) -> NoDup (map fst (delete_own k l)).
Proof. intros H. rewrite keys_delete_own. apply NoDup_filter, H. Qed.

Lemma length_delete_own k l v :
  NoDup (map fst l) -> assoc k l = Some v ->
  S (List.length (delete_own k l)) = List.length l.
Proof.
  induction l as [|[k0 v0] r IH]; cbn; [discriminate|].
  intros Hnd. inversion Hnd as [|? ? Hk0 Hr]; subst.
  destruct (String.eqb_spec k k0) as [->|Hne].
  - intros _. rewrite delete_own_absent by (apply assoc_None_keys, Hk0).
    reflexivity.
  - intros H. cbn. rewrite (IH Hr H). reflexivity.
Qed.

Lemma delete_insert_index n k v l :
  assoc k l = None -> delete_own k (insert_index n k v l) = l.
Proof.
  induction l as [|[k0 v0] r IH]; cbn.
  - rewrite String.eqb_refl. reflexivity.
  - destruct (String.eqb k k0) eqn:E; [discriminate|]. intros H.
    destruct (array_index k0) as [n'|]; [destruct (n' <? n)%N|]; cbn;
      rewrite ?String.eqb_refl, ?E; cbn; rewrite ?E;
      rewrite ?IH, ?delete_own_absent by exact H; reflexivity.
Qed.

Lemma delete_app k l l' :
  delete_own k (l ++ l') = delete_own k l ++ delete_own k l'.
Proof.
  induction l as [|[k0 v0] r IH]; cbn; [reflexivity|].
  destruct (String.eqb k k0); cbn; congruence.
Qed.

(** Deleting a property just added gives the object back. *)
Lemma delete_set_own_new k v l :
  assoc k l = None -> delete_own k (set_own k v l) = l.
Proof.
  intros H. unfold set_own, has_key. rewrite H.
  destruct (array_index k) as [n|].
  - apply delete_insert_index, H.
  - rewrite delete_app, delete_own_absent by exact H.
    cbn. rewrite String.eqb_refl. apply app_nil_r.
Qed.


End MorePropertyFacts.

Lemma digits_before_dash n : forall s r r' acc,
  hex_group n s = Some r -> dash r = Some r' -> digits_value s acc = None.
Proof.
  induction n as [|n IH]; intros s r r' acc; cbn.
  - intros [= <-]. destruct s as [|c s]; cbn; [discriminate|].
    destruct (Ascii.eqb_spec c "-"%char) as [->|]; [|discriminate].
    reflexivity.
  - destruct s as [|c s]; [discriminate|].
    destruct (is_hex c); [|discriminate].
    intros H Hd. cbn. destruct (is_digit c); [|reflexivity].
    apply (IH s r r' _ H Hd).
Qed.

(** An identifier of the generator is no array index: [users] files it
    after every property it already has. *)
Lemma uuid_not_index id : array_index (uuid_text id) = None.
Proof.
  pose proof (uuid_shape id) as H. unfold is_uuid, and_then in H.
  destruct (hex_group 8 (uuid_text id)) as [r|] eqn:Hg; [|discriminate].
  destruct (dash r) as [r'|] eqn:Hd; [|discriminate].
  pose proof (digits_before_dash 8 _ _ _ 0%N Hg Hd) as Hv.
  unfold array_index. destruct (uuid_text id) as [|c s]; [reflexivity|].
  destruct (Ascii.eqb c "0" && negb (String.eqb s "")); [reflexivity|].
  rewrite Hv. reflexivity.
Qed.

(** A message event that returns leaves the keys of the registry as they
    were: the one assignment that adds a key makes the broadcast throw. *)
Lemma onmessage_normal_keys mt (JSON_parse : string -> option JSON) data st st' :
  onmessage mt JSON_parse data st = (Normal tt, st') ->
  map fst (users st') = map fst (users st).
Proof.
  unfold onmessage, bind, or_throw.
  destruct (JSON_parse data) as [message|]; [|discriminate].
  cbn [ret].
  destruct (dispatches_to_join mt message) eqn:Hd.
  - destruct (handleMessage_join mt message st Hd) as [-> Hs].
    destruct (ToPropertyKey (peek message "senderId")) as [k0|] eqn:Hto.
    + rewrite (handleJoin_run mt message _ k0 st Hs Hto).
      match goal with
      | |- context [forallb live ?us] =>
          destruct (forallb live us) eqn:E; [|discriminate]
      end.
      intros [= <-]. cbn [log users].
      revert E. unfold users_assign, users_get, has_key.
      destruct (assoc k0 (users st)) as [u|] eqn:Hown.
      * rewrite andb_false_r. cbn [snd users spread]. intros _.
        rewrite (set_own_present k0 _ _ u Hown). apply keys_replace.
      * cbn [negb]. rewrite andb_true_r.
        destruct (String.eqb k0 "__proto__"); cbn [snd users]; [reflexivity|].
        intros E. exfalso.
        match type of E with
        | forallb live (values (set_own _ ?g _)) = true =>
            assert (connection g = None) as Hg
                by (destruct (users_proto st) as [v|]; [|reflexivity];
                    destruct (String.eqb k0 "userName"); [|reflexivity];
                    destruct v as [[| | | | |]|]; reflexivity);
            rewrite (not_all_live _ g
                       (assoc_In k0 _ _ (assoc_set_own_same k0 g (users st)))
                       Hg) in E
        end.
        discriminate.
    + unfold handleJoin, bind, field. rewrite Hs. cbn [or_throw ret].
      unfold property_key. rewrite Hto. discriminate.
  - intros H.
    destruct (handleMessage_not_join mt message st Hd) as [E|[c E]];
      rewrite H in E; cbn [snd] in E; subst st'; reflexivity.
Qed.

Lemma users_assign_users k0 user st :
  users (snd (users_assign k0 user st)) = users st \/
  users (snd (users_assign k0 user st)) = set_own k0 user (users st).
Proof.
  unfold users_assign.
  destruct (String.eqb k0 "__proto__" && negb (has_key k0 (users st)));
    cbn; auto.
Qed.

(** ** Serialising *)

Section JSON_induction.
Variable P : JSON -> Prop.
Hypothesis HNull : P JNull.
Hypothesis HBool : forall b, P (JBool b).
Hypothesis HNum : forall text, P (JNum text).
Hypothesis HStr : forall s, P (JStr s).
Hypothesis HArr : forall items, Forall P items -> P (JArr items).
Hypothesis HObj : forall fields, Forall (fun p => P (snd p)) fields -> P (JObj fields).

End JSON_induction.


(** ** Dispatching *)

Lemma handleMessage_dispatch mt message type key st :
  get_field message "type" = Some type ->
  ToPropertyKey type = Some key ->
  handleMessage mt message st =
  match messageHandlers mt key with
  | Some HandleJoin => handleJoin mt message st
  | Some (Inherited name) => call_inherited name st
  | None =>
      if truthy (peek message "senderId") && truthy (peek message "recipientId")
      then match ToPropertyKey (peek message "recipientId") with
           | Some k => sendToUser (users_get k st) message st
           | None => (Throw TypeError, st)
           end
      else (Normal tt, st)
  end.
Proof.
  intros Hget Hto. unfold handleMessage, bind, field.
  rewrite Hget. cbn [or_throw ret]. unfold property_key.
  rewrite Hto. cbn [or_throw ret].
  destruct (messageHandlers mt key) as [[|name]|]; try reflexivity.
  rewrite (get_field_peek _ _ _ Hget "senderId"). cbn [or_throw ret].
  destruct (truthy (peek message "senderId")); [|reflexivity].
  rewrite (get_field_peek _ _ _ Hget "recipientId"). cbn [or_throw ret].
  destruct (truthy (peek message "recipientId")); [|reflexivity].
  cbn [andb].
  destruct (ToPropertyKey (peek message "recipientId")); reflexivity.
Qed.

Lemma truthy_peek_object message name :
  truthy (peek message name) = true ->
  forall name', get_field message name' = Some (peek message name').
Proof.
  intros H name'. unfold peek in *.
  destruct message; cbn in *; try discriminate; reflexivity.
Qed.

Lemma no_handler_not_quiet mt key :
  messageHandlers mt key = None ->
  String.eqb key "toString" || String.eqb key "constructor" = false.
Proof.
  unfold messageHandlers. intros H.
  destruct (String.eqb_spec key "toString") as [->|_].
  { destruct (String.eqb "toString" (join mt)); discriminate. }
  destruct (String.eqb_spec key "constructor") as [->|_].
  { destruct (String.eqb "constructor" (join mt)); discriminate. }
  reflexivity.
Qed.

(** ** Forwarding *)

(** C1 (as amended).  An envelope that [handleMessage] does not hand to
    [handleJoin], with a truthy senderId and a truthy recipientId that is
    not an own key of the registry, has no effect on the relay: nothing is
    sent and the registry is unchanged.  But it is not dropped in silence:
    the handler throws a TypeError, on the missing recipient, on the type
    if it cannot be coerced to a key, or in the inherited method a type
    named like a property of [Object.prototype] selects.  The handler
    returns only when that inherited method is [toString] or
    [constructor]. *)
Theorem forward_to_unregistered_recipient mt message st :
  dispatches_to_join mt message = false ->
  truthy (peek message "senderId") = true ->
  truthy (peek message "recipientId") = true ->
  entry_of (peek message "recipientId") st = None ->
  handleMessage mt message st =
  (match type_key message with
   | Some key =>
       if String.eqb key "toString" || String.eqb key "constructor"
       then Normal tt else Throw TypeError
   | None => Throw TypeError
   end, st).
Proof.
  intros Hd Hs Hr Hentry.
  pose proof (truthy_peek_object _ _ Hs "type") as Hget.
  unfold dispatches_to_join in Hd. unfold type_key, and_then in *.
  rewrite Hget in *.
  destruct (ToPropertyKey (peek message "type")) as [key|] eqn:Hto.
  - rewrite (handleMessage_dispatch mt message _ key st Hget Hto).
    destruct (messageHandlers mt key) as [[|name]|] eqn:Hh; [discriminate| |].
    + assert (name = key) as ->.
      { unfold messageHandlers in Hh.
        destruct (String.eqb key (join mt)); [discriminate|].
        destruct (existsb (String.eqb key) Object_prototype_names);
          [congruence|discriminate]. }
      unfold call_inherited.
      destruct (String.eqb key "toString" || String.eqb key "constructor");
        reflexivity.
    + rewrite (no_handler_not_quiet mt key Hh), Hs, Hr. cbn [andb].
      unfold entry_of, and_then in Hentry.
      destruct (ToPropertyKey (peek message "recipientId")) as [k|]; [|reflexivity].
      apply sendToUser_not_own, Hentry.
  - unfold handleMessage, bind, field. rewrite Hget. cbn [or_throw ret].
    unfold property_key. rewrite Hto. reflexivity.
Qed.

Lemma forward_to_unregistered_recipient_witness :
  handleMessage demo_types (offer_to (uuid_text uuid_c)) two_connected
  = (Throw TypeError, two_connected).
Proof.
  exact (forward_to_unregistered_recipient demo_types
           (offer_to (uuid_text uuid_c)) two_connected
           eq_refl eq_refl eq_refl eq_refl).
Defined.

(** C1 as stated fails: with [uuid_a] and [uuid_b] registered, an offer
    from [uuid_a] to the unregistered [uuid_c] meets every premise, and the
    handler completes with a TypeError instead of returning. *)
Lemma forward_to_unregistered_not_silent :
  type_key (offer_to (uuid_text uuid_c)) = Some "offer" /\
  messageHandlers demo_types "offer" = None /\
  truthy (peek (offer_to (uuid_text uuid_c)) "senderId") = true /\
  truthy (peek (offer_to (uuid_text uuid_c)) "recipientId") = true /\
  assoc (uuid_text uuid_c) (users two_connected) = None /\
  fst (handleMessage demo_types (offer_to (uuid_text uuid_c)) two_connected)
  = Throw TypeError.
Proof. repeat split; vm_compute; reflexivity. Qed.




(** ** Decoding *)

(** C2 (as amended).  A payload that [JSON.parse] rejects is not absorbed:
    [onmessage] throws the SyntaxError out of the message handler.  Nothing
    has been sent and the registry is unchanged when it does. *)
Theorem undecodable_payload_throws mt (JSON_parse : string -> option JSON) data st :
  JSON_parse data = None ->
  onmessage mt JSON_parse data st = (Throw SyntaxError, st).
Proof. intros H. unfold onmessage, bind, or_throw. rewrite H. reflexivity. Qed.

Lemma undecodable_payload_throws_witness :
  onmessage demo_types demo_parse "{oops" two_connected
  = (Throw SyntaxError, two_connected).
Proof. apply undecodable_payload_throws. reflexivity. Defined.

(** C2 as stated fails: the text [{oops] is not JSON, and handling it
    completes with a SyntaxError instead of returning. *)
Lemma undecodable_payload_not_absorbed :
  demo_parse "{oops" = None /\
  fst (onmessage demo_types demo_parse "{oops" two_connected) = Throw SyntaxError.
Proof. split; vm_compute; reflexivity. Qed.

(** ** Joining *)




(** ** Disconnecting *)

(** C4 (as amended).  Closing the same participant twice removes its entry
    once, and the second close leaves the registry as it is; but each close
    runs the roster broadcast, so that every remaining participant is sent
    the roster twice.  Neither close throws when every remaining entry holds
    a connection. *)
Theorem second_close_broadcasts_again mt id st :
  let st0 := {| users := delete_own (uuid_text id) (users st);
                users_proto := users_proto st;
                sent := sent st |} in
  forallb live (values (users st0)) = true ->
  onclose mt id st = (Normal tt, log st0 (broadcast mt st0)) /\
  onclose mt id (log st0 (broadcast mt st0))
  = (Normal tt, log st0 (broadcast mt st0 ++ broadcast mt st0)).
Proof.
  intros st0 Hlive. split.
  - unfold onclose, bind, users_delete. fold st0.
    rewrite sendUpdatedUserList_run, Hlive. reflexivity.
  - unfold onclose, bind, users_delete. cbn [users users_proto sent log].
    rewrite (delete_own_absent (uuid_text id) (users st0))
      by apply assoc_delete_same.
    fold (log st0 (broadcast mt st0)).
    rewrite sendUpdatedUserList_run. cbn [users log]. rewrite Hlive.
    rewrite log_log. reflexivity.
Qed.

Lemma second_close_broadcasts_again_witness :
  let st1 := snd (onclose demo_types uuid_a two_connected) in
  onclose demo_types uuid_a st1
  = (Normal tt, log st1 (broadcast demo_types st1)).
Proof.
  refine (let H := second_close_broadcasts_again demo_types uuid_a two_connected
                     eq_refl in _).
  destruct H as [H1 H2]. cbv zeta. rewrite H1. cbn [snd].
  rewrite H2, log_log. reflexivity.
Defined.

(** C4 as stated fails: with [uuid_a] and [uuid_b] registered, the second
    close of [uuid_a] is not a no-op that sends nothing.  It sends the
    roster to the connection of [uuid_b] once more, which has then received
    two rosters for one departure. *)
Lemma second_close_not_silent :
  let roster :=
    JObj [("type", JStr "userList");
          ("users", JArr [JObj [("userId", JStr (uuid_text uuid_b))]])] in
  let st1 := snd (onclose demo_types uuid_a two_connected) in
  let st2 := snd (onclose demo_types uuid_a st1) in
  assoc (uuid_text uuid_a) (users st1) = None /\
  sent st2 = sent st1 ++ [(2, roster)] /\
  inbox 2 st2 = inbox 2 two_connected ++ [roster; roster].
Proof. repeat split; vm_compute; reflexivity. Qed.

(** ** Connecting *)




(** ** What a join changes *)

(** C8.  A join whose senderId coerces to an own key of the registry
    overwrites the userName of the entry under that key with the envelope's
    userName, whatever name was there, and nothing else: the entry keeps its
    userId and its connection, every other key reads as before, the keys and
    their order are the same, and the prototype of the registry is the
    same.  More generally no event alters the userId or the connection of an
    entry: short of a new connection that is handed the very key of the
    entry, which the generator is trusted not to do, the entry keeps both
    until the close of its connection deletes it. *)
Theorem join_changes_only_userName mt (JSON_parse : string -> option JSON) k u st :
  assoc k (users st) = Some u ->
  (forall message sid,
      get_field message "senderId" = Some sid ->
      ToPropertyKey sid = Some k ->
      let st' := snd (handleJoin mt message st) in
      users st' = replace k (with_userName u (peek message "userName")) (users st) /\
      (exists u', assoc k (users st') = Some u' /\
                  userName u' = peek message "userName" /\
                  userId u' = userId u /\
                  connection u' = connection u) /\
      (forall k', k' <> k -> assoc k' (users st') = assoc k' (users st)) /\
      map fst (users st') = map fst (users st) /\
      users_proto st' = users_proto st) /\
  (forall ev,
      (forall c id, ev = Connection c id -> uuid_text id <> k) ->
      match assoc k (users (snd (handle mt JSON_parse ev st))) with
      | Some u' => userId u' = userId u /\ connection u' = connection u
      | None => exists id, ev = Close id /\ uuid_text id = k
      end).
Proof.
  intros Hown. split.
  - intros message sid Hget Hto st'.
    destruct (handleJoin_users mt message sid k u st Hget Hto Hown) as [Hu Hp].
    fold st' in Hu, Hp.
    rewrite Hu. repeat split; auto.
    + exists (with_userName u (peek message "userName")).
      rewrite assoc_replace_same, Hown. auto.
    + intros k' Hne. apply assoc_replace_other, Hne.
    + apply keys_replace.
  - intros [c id|data|id] Hfresh; cbn [handle].
    + rewrite on_connection_run. cbn [snd users].
      rewrite assoc_set_own_other by (intros E; exact (Hfresh c id eq_refl (eq_sym E))).
      rewrite Hown. auto.
    + assert (users (snd (onmessage mt JSON_parse data st)) = users st \/
              exists k0 name,
                users (snd (onmessage mt JSON_parse data st))
                = users (snd (users_assign k0
                     (with_userName (spread (users_get k0 st)) name) st))) as H.
      { unfold onmessage, bind, or_throw.
        destruct (JSON_parse data) as [message|]; [|left; reflexivity].
        cbn [ret].
        pose proof (handleMessage_users mt message st) as H. cbv zeta in H.
        destruct (handleMessage mt message st) as [[]]; exact H. }
      destruct H as [->|(k0 & name & ->)].
      * rewrite Hown. auto.
      * destruct (users_assign_identity k0 name k u st Hown) as (u' & -> & H).
        exact H.
    + unfold onclose, bind, users_delete.
      rewrite sendUpdatedUserList_run. cbn [snd log users].
      destruct (String.eqb_spec k (uuid_text id)) as [->|Hne].
      * rewrite assoc_delete_same. exists id. auto.
      * rewrite (assoc_delete_other (uuid_text id) k) by exact Hne.
        rewrite Hown. auto.
Qed.

Lemma join_changes_only_userName_witness :
  users (snd (handleJoin demo_types (join_from (uuid_text uuid_a) "Alice") two_connected))
  = replace (uuid_text uuid_a)
      {| connection := Some 1;
         userId := Some (JStr (uuid_text uuid_a));
         userName := Some (JStr "Alice") |}
      (users two_connected).
Proof.
  apply (join_changes_only_userName demo_types demo_parse (uuid_text uuid_a)
           {| connection := Some 1;
              userId := Some (JStr (uuid_text uuid_a));
              userName := None |} two_connected eq_refl)
    with (sid := Some (JStr (uuid_text uuid_a))); reflexivity.
Defined.

(** ** The roster *)

(** C9 (as amended).  A participant that has connected and not joined has
    no userName, and none appears in any roster.  The connection handler
    makes its entry without one; no event gives it one short of a join
    whose senderId coerces to its key, so the entry stays unnamed until
    then or until the close that deletes it; and whatever the state, the
    roster a broadcast sends lists an unnamed entry with its userId alone:
    the userName field is absent from that element, not present with an
    empty value. *)
Theorem unnamed_entry_omits_userName mt (JSON_parse : string -> option JSON) :
  (forall c id st,
      assoc (uuid_text id) (users (snd (on_connection mt c id st)))
      = Some {| connection := Some c;
                userId := Some (JStr (uuid_text id));
                userName := None |}) /\
  (forall ev st k u,
      assoc k (users st) = Some u ->
      userName u = None ->
      (forall data message,
          ev = Message data ->
          JSON_parse data = Some message ->
          dispatches_to_join mt message = true ->
          ToPropertyKey (peek message "senderId") <> Some k) ->
      match assoc k (users (snd (handle mt JSON_parse ev st))) with
      | Some u' => userName u' = None
      | None => exists id, ev = Close id /\ uuid_text id = k
      end) /\
  (forall st u,
      In u (values (users st)) ->
      userName u = None ->
      snd (sendUpdatedUserList mt st) = log st (broadcast mt st) /\
      (forall p, In p (broadcast mt st) ->
                 snd p = JObj [("type", JStr (userList mt));
                               ("users", JArr (roster_entries st))]) /\
      In (roster_entry u) (roster_entries st) /\
      roster_entry u = JSON_stringify (JObj (object [("userId", userId u)])) /\
      get_field (roster_entry u) "userName" = Some None).
Proof.
  split; [|split].
  - intros c id st. rewrite on_connection_run. cbn [snd users].
    apply assoc_set_own_same.
  - intros ev st k u Hown Hname Hnot.
    destruct ev as [c id|data|id]; cbn [handle].
    + rewrite on_connection_run. cbn [snd users].
      destruct (String.eqb_spec k (uuid_text id)) as [->|Hne].
      * rewrite assoc_set_own_same. reflexivity.
      * rewrite (assoc_set_own_other (uuid_text id) k) by exact Hne.
        rewrite Hown. exact Hname.
    + assert (users (snd (onmessage mt JSON_parse data st)) = users st \/
              exists k0 user, k0 <> k /\
                users (snd (onmessage mt JSON_parse data st))
                = set_own k0 user (users st)) as H.
      { unfold onmessage, bind, or_throw.
        destruct (JSON_parse data) as [message|] eqn:Hparse; [|left; reflexivity].
        cbn [ret].
        destruct (dispatches_to_join mt message) eqn:Hd.
        - destruct (handleMessage_join mt message st Hd) as [E Hs].
          destruct (ToPropertyKey (peek message "senderId")) as [k0|] eqn:Hto.
          + assert (k0 <> k) as Hne
                by (intros ->; exact (Hnot data message eq_refl Hparse Hd Hto)).
            rewrite E, (handleJoin_run mt message _ k0 st Hs Hto).
            cbn [snd log users].
            match goal with
            | |- context [users_assign k0 ?user st] =>
                destruct (users_assign_users k0 user st) as [->| ->];
                  [left; reflexivity|right; exists k0, user; auto]
            end.
          + left. rewrite E. unfold handleJoin, bind, field. rewrite Hs.
            cbn [or_throw ret]. unfold property_key. rewrite Hto. reflexivity.
        - left. destruct (handleMessage_not_join mt message st Hd) as [H|[c H]];
            destruct (handleMessage mt message st) as [[]]; cbn [snd] in *;
            subst; reflexivity. }
      destruct H as [->|(k0 & user & Hne & ->)].
      * rewrite Hown. exact Hname.
      * rewrite (assoc_set_own_other k0 k) by (intros E; exact (Hne (eq_sym E))).
        rewrite Hown. exact Hname.
    + unfold onclose, bind, users_delete.
      rewrite sendUpdatedUserList_run. cbn [snd log users].
      destruct (String.eqb_spec k (uuid_text id)) as [->|Hne].
      * rewrite assoc_delete_same. exists id. auto.
      * rewrite (assoc_delete_other (uuid_text id) k) by exact Hne.
        rewrite Hown. exact Hname.
  - intros st u Hin Hname. repeat split.
    + rewrite sendUpdatedUserList_run. reflexivity.
    + intros p Hp. unfold broadcast in Hp.
      rewrite (deliveries_payload _ _ _ Hp). apply userListMessage_shape.
    + unfold roster_entries. apply in_map, Hin.
    + unfold roster_entry. rewrite Hname. reflexivity.
    + unfold roster_entry. rewrite Hname. cbn.
      destruct (userId u); reflexivity.
Qed.

Lemma unnamed_entry_omits_userName_witness :
  In (JObj [("userId", JStr (uuid_text uuid_b))]) (roster_entries two_connected) /\
  get_field (JObj [("userId", JStr (uuid_text uuid_b))]) "userName" = Some None.
Proof.
  destruct (unnamed_entry_omits_userName demo_types demo_parse) as (_ & _ & H).
  destruct (H two_connected
              {| connection := Some 2;
                 userId := Some (JStr (uuid_text uuid_b));
                 userName := None |}) as (_ & _ & Hin & _ & Hget).
  - right. left. reflexivity.
  - reflexivity.
  - split; [exact Hin|exact Hget].
Defined.

(** C9 as stated fails on the scenario it cites: after both participants
    have connected and the first has joined as A, the roster entry of the
    second has no userName field, where the claim has one with the empty
    string as its value. *)
Lemma unnamed_entry_not_empty_string :
  let st := snd (handleJoin demo_types (join_from (uuid_text uuid_a) "A") two_connected) in
  roster_entries st
  = [JObj [("userName", JStr "A"); ("userId", JStr (uuid_text uuid_a))];
     JObj [("userId", JStr (uuid_text uuid_b))]] /\
  roster_entries st
  <> [JObj [("userName", JStr "A"); ("userId", JStr (uuid_text uuid_a))];
      JObj [("userName", JStr ""); ("userId", JStr (uuid_text uuid_b))]] /\
  peek (nth 1 (roster_entries st) JNull) "userName" <> Some (JStr "").
Proof. repeat split; vm_compute; discriminate. Qed.

(** ** Who emits a roster *)

(** C10.  Accepting a connection sends one message, the
    connection-established envelope, to the new connection: it is not a
    roster, and the inbox of every other connection is what it was.  A
    payload that is not decoded, or whose message is not handed to
    [handleJoin], sends nothing or forwards that one message, serialised,
    to one connection.  The roster is therefore sent from [handleJoin] and
    [onclose] only. *)
Theorem connection_sends_no_roster mt (JSON_parse : string -> option JSON) c id st :
  let hello := JObj [("type", JStr (signalServerConnected mt));
                     ("userId", JStr (uuid_text id))] in
  let st' := snd (on_connection mt c id st) in
  fst (on_connection mt c id st) = Normal tt /\
  sent st' = sent st ++ [(c, hello)] /\
  (forall st0, hello <> userListMessage mt st0) /\
  (forall st0, hello <> JSON_stringify (userListMessage mt st0)) /\
  (forall c', c' <> c -> inbox c' st' = inbox c' st) /\
  (forall data,
      match JSON_parse data with
      | Some message => dispatches_to_join mt message
      | None => false
      end = false ->
      snd (onmessage mt JSON_parse data st) = st \/
      exists c' message,
        JSON_parse data = Some message /\
        snd (onmessage mt JSON_parse data st)
        = log st [(c', JSON_stringify message)]).
Proof.
  intros hello st'.
  assert (on_connection mt c id st
          = (Normal tt,
             log {| users := set_own (uuid_text id)
                               {| connection := Some c;
                                  userId := Some (JStr (uuid_text id));
                                  userName := None |} (users st);
                    users_proto := users_proto st;
                    sent := sent st |} [(c, hello)])) as E.
  { unfold on_connection, bind, users_assign. rewrite uuid_not_proto. reflexivity. }
  unfold st'. rewrite E. cbn [fst snd]. repeat split.
  - intros st0 H. unfold hello, userListMessage in H. cbn in H. discriminate H.
  - intros st0 H. rewrite userListMessage_shape in H. discriminate H.
  - intros c' Hne. rewrite inbox_log. cbn.
    apply Nat.eqb_neq in Hne. rewrite Nat.eqb_sym, Hne. cbn. apply app_nil_r.
  - intros data Hd. unfold onmessage, bind, or_throw.
    destruct (JSON_parse data) as [message|]; [|left; reflexivity].
    cbn [ret].
    destruct (handleMessage_not_join mt message st Hd) as [H|[c' H]].
    + left. destruct (handleMessage mt message st) as [[]]; exact H.
    + right. exists c', message. split; [reflexivity|].
      destruct (handleMessage mt message st) as [[]]; exact H.
Qed.

Lemma connection_sends_no_roster_witness :
  inbox 1 (snd (on_connection demo_types 3 uuid_c two_connected))
  = inbox 1 two_connected.
Proof.
  apply (connection_sends_no_roster demo_types demo_parse 3 uuid_c two_connected).
  discriminate.
Defined.

(** ** The roster after connects and joins *)

(** Through a run that returns and has no close, the keys of the registry
    are those it had and then the identifiers of the connections, in
    order, as long as these are all distinct. *)
Lemma run_without_close mt (JSON_parse : string -> option JSON) evs : forall st0 st,
  run mt JSON_parse evs st0 = (Normal tt, st) ->
  no_close evs = true ->
  NoDup (map fst (users st0) ++ connection_ids evs) ->
  map fst (users st) = map fst (users st0) ++ connection_ids evs.
Proof.
  induction evs as [|ev evs IH]; intros st0 st; cbn [run].
  - intros [= <-] _ _. cbn. symmetry. apply app_nil_r.
  - unfold bind.
    destruct (handle mt JSON_parse ev st0) as [[[]|e] st1] eqn:E; [|discriminate].
    intros Hrun Hnc Hnd.
    destruct ev as [c id|data|id]; cbn [handle no_close connection_ids] in *.
    + rewrite on_connection_run in E. injection E as <-.
      assert (assoc (uuid_text id) (users st0) = None) as Hnew.
      { apply assoc_None_keys. intros Hin.
        apply NoDup_remove_2 in Hnd. apply Hnd, in_or_app. left. exact Hin. }
      assert (forall user,
                 map fst (set_own (uuid_text id) user (users st0))
                 = map fst (users st0) ++ [uuid_text id]) as Hkeys.
      { intros user. unfold set_own, has_key.
        rewrite Hnew, uuid_not_index, map_app. reflexivity. }
      rewrite (IH _ st Hrun Hnc); cbn [users]; rewrite Hkeys, <- app_assoc.
      * reflexivity.
      * exact Hnd.
    + pose proof (onmessage_normal_keys mt JSON_parse data st0 st1 E) as Hkeys.
      rewrite (IH st1 st Hrun Hnc); rewrite Hkeys; [reflexivity|exact Hnd].
    + discriminate Hnc.
Qed.

(** C7 (as amended).  On a registry whose entries all hold a connection, as
    in every state the relay reaches without an uncaught exception, a
    roster broadcast returns normally after sending one userList envelope
    per entry; each entry's connection is sent that envelope, and its
    [users] array has one element per entry, named or not.  After a run
    from the initial state whose handlers all returned, with N connections
    of distinct identifiers and no close, the registry holds exactly those
    N identifiers and the array has N elements.  After a join with userName
    [name] from the registered participant with userId [P], the array
    contains the element with that userName and that userId. *)
Theorem roster_broadcast mt (JSON_parse : string -> option JSON) :
  (forall st,
      forallb live (values (users st)) = true ->
      sendUpdatedUserList mt st = (Normal tt, log st (broadcast mt st)) /\
      JSON_stringify (userListMessage mt st)
      = JObj [("type", JStr (userList mt)); ("users", JArr (roster_entries st))] /\
      List.length (roster_entries st) = List.length (users st) /\
      List.length (broadcast mt st) = List.length (users st) /\
      (forall p, In p (broadcast mt st) ->
                 snd p = JSON_stringify (userListMessage mt st)) /\
      (forall k u c, assoc k (users st) = Some u -> connection u = Some c ->
                     In (c, JSON_stringify (userListMessage mt st))
                        (broadcast mt st))) /\
  (forall evs st,
      run mt JSON_parse evs initial = (Normal tt, st) ->
      no_close evs = true ->
      NoDup (connection_ids evs) ->
      forallb live (values (users st)) = true /\
      map fst (users st) = connection_ids evs /\
      List.length (roster_entries st) = List.length (connection_ids evs)) /\
  (forall message sid k u st P name,
      get_field message "senderId" = Some sid ->
      ToPropertyKey sid = Some k ->
      assoc k (users st) = Some u ->
      userId u = Some (JStr P) ->
      peek message "userName" = Some (JStr name) ->
      In (JObj [("userName", JStr name); ("userId", JStr P)])
         (roster_entries (snd (handleJoin mt message st)))).
Proof.
  split; [|split].
  - intros st Hlive. rewrite sendUpdatedUserList_run, Hlive.
    repeat split.
    + apply userListMessage_shape.
    + apply roster_entries_length.
    + unfold broadcast. rewrite deliveries_length by exact Hlive.
      unfold values. apply List.length_map.
    + intros p Hp. apply (deliveries_payload _ _ _ Hp).
    + intros k u c Hk Hc. unfold broadcast.
      apply (deliveries_reach _ _ u c Hlive); [|exact Hc].
      apply (assoc_In k), Hk.
  - intros evs st Hrun Hnc Hnd.
    pose proof (run_without_close mt JSON_parse evs initial st Hrun Hnc Hnd) as Hkeys.
    cbn in Hkeys. repeat split.
    + apply (run_keeps_live mt JSON_parse evs initial st eq_refl Hrun).
    + exact Hkeys.
    + rewrite roster_entries_length, <- Hkeys. symmetry. apply List.length_map.
  - intros message sid k u st P name Hget Hto Hown HP Hname.
    destruct (handleJoin_users mt message sid k u st Hget Hto Hown) as [Hu _].
    assert (assoc k (users (snd (handleJoin mt message st)))
            = Some (with_userName u (Some (JStr name)))) as Hin
        by (rewrite Hu, assoc_replace_same, Hown, Hname; reflexivity).
    apply roster_entry_In in Hin. unfold roster_entry in Hin.
    cbn [with_userName userName userId] in Hin. rewrite HP in Hin. exact Hin.
Qed.

Lemma roster_broadcast_witness :
  List.length (roster_entries two_connected) = 2 /\
  In (JObj [("userName", JStr "Alice"); ("userId", JStr (uuid_text uuid_a))])
     (roster_entries
        (snd (handleJoin demo_types (join_from (uuid_text uuid_a) "Alice")
                         two_connected))) /\
  sendUpdatedUserList demo_types two_connected
  = (Normal tt, log two_connected (broadcast demo_types two_connected)).
Proof.
  destruct (roster_broadcast demo_types demo_parse) as (Ha & Hb & Hc).
  split; [|split].
  - apply (Hb [Connection 1 uuid_a; Connection 2 uuid_b] two_connected);
      [reflexivity | reflexivity |].
    repeat constructor; cbn; intuition discriminate.
  - apply (Hc (join_from (uuid_text uuid_a) "Alice")
              (Some (JStr (uuid_text uuid_a))) (uuid_text uuid_a)
              {| connection := Some 1;
                 userId := Some (JStr (uuid_text uuid_a));
                 userName := None |} two_connected); reflexivity.
  - apply Ha. reflexivity.
Defined.

(** C7 as stated fails: with [uuid_a] and [uuid_b] connected and no
    disconnect, a join whose senderId is the unregistered key [7] runs a
    roster broadcast that sends nothing to either connection in the
    registry, the entry it has just made being enumerated first, and whose
    roster has three entries after two connects. *)
Lemma roster_broadcast_after_stale_join :
  let r := handleMessage demo_types (join_from "7" "Mallory") two_connected in
  dispatches_to_join demo_types (join_from "7" "Mallory") = true /\
  fst r = Throw TypeError /\
  map fst (users (snd r)) = ["7"; uuid_text uuid_a; uuid_text uuid_b] /\
  sent (snd r) = sent two_connected /\
  List.length (roster_entries (snd r)) = 3.
Proof. repeat split; vm_compute; reflexivity. Qed.

(** * Further properties *)

(** ** What [handleMessage] drops, and how *)

(** X1.  An envelope whose type has no handler and whose senderId or
    recipientId is missing or falsy (absent, null, false, 0 or the empty
    string) is dropped: [handleMessage] returns normally, sends nothing
    and leaves the registry as it is. *)
Theorem incomplete_envelope_is_dropped mt message key st :
  type_key message = Some key ->
  messageHandlers mt key = None ->
  truthy (peek message "senderId") && truthy (peek message "recipientId") = false ->
  handleMessage mt message st = (Normal tt, st).
Proof.
  intros Hkey Hnone Hfalsy.
  destruct (type_key_inv _ _ Hkey) as (type & Hget & Hto).
  rewrite (handleMessage_dispatch mt message type key st Hget Hto).
  rewrite Hnone, Hfalsy. reflexivity.
Qed.

Lemma incomplete_envelope_is_dropped_witness :
  handleMessage demo_types
    (JObj [("type", JStr "offer"); ("senderId", JStr (uuid_text uuid_a));
           ("recipientId", JStr "")])
    two_connected
  = (Normal tt, two_connected).
Proof.
  apply (incomplete_envelope_is_dropped demo_types _ "offer"); reflexivity.
Defined.

(** X2.  A payload that decodes to something other than an object: [null]
    makes [onmessage] throw a TypeError on reading its type; a number, a
    string, a boolean or an array reads [undefined] for every field and is
    dropped without effect, unless the join tag is itself the text
    [undefined]. *)
Theorem non_object_payload mt (JSON_parse : string -> option JSON) data message st :
  JSON_parse data = Some message ->
  join mt <> "undefined" ->
  onmessage mt JSON_parse data st =
  match message with
  | JObj _ => handleMessage mt message st
  | JNull => (Throw TypeError, st)
  | _ => (Normal tt, st)
  end.
Proof.
  intros Hparse Hjoin. unfold onmessage, bind, or_throw. rewrite Hparse.
  cbn [ret].
  assert (messageHandlers mt "undefined" = None) as Hnone.
  { unfold messageHandlers.
    destruct (String.eqb_spec "undefined" (join mt)) as [E|_]; [congruence|].
    reflexivity. }
  destruct message; try reflexivity;
    match goal with
    | |- handleMessage _ ?m _ = _ =>
        rewrite (handleMessage_dispatch mt m None "undefined" st eq_refl eq_refl);
        rewrite Hnone; reflexivity
    end.
Qed.

Lemma non_object_payload_witness :
  onmessage demo_types demo_parse "null" two_connected = (Throw TypeError, two_connected) /\
  onmessage demo_types demo_parse "[]" two_connected = (Normal tt, two_connected).
Proof.
  split.
  - apply (non_object_payload demo_types demo_parse "null" JNull);
      [reflexivity | discriminate].
  - apply (non_object_payload demo_types demo_parse "[]" (JArr []));
      [reflexivity | discriminate].
Defined.

(** X3.  A message whose type is the name of a property of
    [Object.prototype], and not the join tag, is never forwarded, whatever
    senderId and recipientId it carries: [messageHandlers] answers with the
    inherited value, and calling it sends nothing and leaves the registry as
    it is.  The handler returns for [toString] and [constructor] and throws
    a TypeError for every other such name. *)
Theorem reserved_type_is_not_forwarded mt message key st :
  type_key message = Some key ->
  key <> join mt ->
  In key Object_prototype_names ->
  handleMessage mt message st =
  (if String.eqb key "toString" || String.eqb key "constructor"
   then Normal tt else Throw TypeError, st).
Proof.
  intros Hkey Hne Hin.
  destruct (type_key_inv _ _ Hkey) as (type & Hget & Hto).
  rewrite (handleMessage_dispatch mt message type key st Hget Hto).
  unfold messageHandlers.
  apply String.eqb_neq in Hne. rewrite Hne.
  assert (existsb (String.eqb key) Object_prototype_names = true) as ->.
  { apply existsb_exists. exists key. split; [exact Hin|apply String.eqb_refl]. }
  unfold call_inherited.
  destruct (String.eqb key "toString" || String.eqb key "constructor");
    reflexivity.
Qed.

Lemma reserved_type_is_not_forwarded_witness :
  handleMessage demo_types
    (JObj [("type", JStr "toString"); ("senderId", JStr (uuid_text uuid_a));
           ("recipientId", JStr (uuid_text uuid_b))])
    two_connected
  = (Normal tt, two_connected).
Proof.
  apply (reserved_type_is_not_forwarded demo_types _ "toString");
    [reflexivity | discriminate | cbn; tauto].
Defined.

(** ** More on joins *)

(** X4.  A join whose senderId coerces to [__proto__] adds no entry: the
    assignment replaces the prototype of [users], the own entries stay as
    they are, and the roster of the unchanged registry is broadcast to
    its participants. *)
Theorem join_naming_proto mt message sid st :
  get_field message "senderId" = Some sid ->
  ToPropertyKey sid = Some "__proto__" ->
  assoc "__proto__" (users st) = None ->
  let st' := snd (handleJoin mt message st) in
  users st' = users st /\
  users_proto st' = Some (peek message "userName") /\
  sent st' = sent st ++ broadcast mt st /\
  fst (handleJoin mt message st)
  = if forallb live (values (users st)) then Normal tt else Throw TypeError.
Proof.
  intros Hget Hto Hnew st'. unfold st'.
  rewrite (handleJoin_run mt message sid "__proto__" st Hget Hto).
  unfold users_assign, has_key. rewrite Hnew. cbn. auto.
Qed.

Lemma join_naming_proto_witness :
  users (snd (handleJoin demo_types (join_from "__proto__" "Mallory") two_connected))
  = users two_connected.
Proof.
  apply (join_naming_proto demo_types (join_from "__proto__" "Mallory")
           (Some (JStr "__proto__")) two_connected); reflexivity.
Defined.



(** ** More on the broadcast *)

Lemma deliveries_split us message :
  exists pre rest,
    us = pre ++ rest /\
    forallb live pre = true /\
    deliveries us message = deliveries pre message /\
    List.length (deliveries pre message) = List.length pre /\
    forallb live us = match rest with [] => true | _ :: _ => false end /\
    match rest with [] => True | dead :: _ => connection dead = None end.
Proof.
  induction us as [|u r (pre & rest & E & Hl & Hd & Hlen & Hall & Hdead)].
  - exists [], []. cbn. repeat split.
  - destruct (connection u) as [c|] eqn:Hc.
    + exists (u :: pre), rest. cbn. unfold live at 1 3. rewrite Hc. cbn.
      repeat split; auto; congruence.
    + exists [], (u :: r). cbn. unfold live at 1. rewrite Hc. cbn.
      repeat split; auto.
Qed.

(** X6.  A roster broadcast walks the entries in their order and stops at
    the first one without a connection: every entry before it has been sent
    the roster, no entry after it has, and the broadcast throws a TypeError
    exactly when there is such an entry. *)
Theorem broadcast_stops_at_first_dead mt st :
  exists pre rest,
    values (users st) = pre ++ rest /\
    forallb live pre = true /\
    snd (sendUpdatedUserList mt st)
    = log st (deliveries pre (JSON_stringify (userListMessage mt st))) /\
    List.length (deliveries pre (JSON_stringify (userListMessage mt st)))
    = List.length pre /\
    match rest with
    | [] => fst (sendUpdatedUserList mt st) = Normal tt
    | dead :: _ =>
        connection dead = None /\
        fst (sendUpdatedUserList mt st) = Throw TypeError
    end.
Proof.
  destruct (deliveries_split (values (users st))
              (JSON_stringify (userListMessage mt st)))
    as (pre & rest & E & Hl & Hd & Hlen & Hall & Hdead).
  exists pre, rest. rewrite sendUpdatedUserList_run. unfold broadcast.
  rewrite Hd, Hall. cbn [fst snd].
  repeat split; auto. destruct rest; auto.
Qed.

(** ** Connecting and closing *)

(** X7.  A new participant goes to the end of the registry: the entries
    already there keep their order, and the roster lists the newcomer last,
    with its userId alone. *)
Theorem new_participant_is_listed_last mt c id st :
  assoc (uuid_text id) (users st) = None ->
  let st' := snd (on_connection mt c id st) in
  users st' = users st ++
    [(uuid_text id, {| connection := Some c;
                       userId := Some (JStr (uuid_text id));
                       userName := None |})] /\
  roster_entries st' = roster_entries st ++ [JObj [("userId", JStr (uuid_text id))]].
Proof.
  intros Hnew st'.
  assert (users st' = users st ++
    [(uuid_text id, {| connection := Some c;
                       userId := Some (JStr (uuid_text id));
                       userName := None |})]) as E.
  { unfold st'. rewrite on_connection_run. cbn [snd users].
    unfold set_own, has_key. rewrite Hnew, uuid_not_index. reflexivity. }
  split; [exact E|].
  unfold roster_entries, values. rewrite E, !map_app. reflexivity.
Qed.

Lemma new_participant_is_listed_last_witness :
  roster_entries (snd (on_connection demo_types 3 uuid_c two_connected))
  = roster_entries two_connected ++ [JObj [("userId", JStr (uuid_text uuid_c))]].
Proof.
  apply (new_participant_is_listed_last demo_types 3 uuid_c two_connected).
  reflexivity.
Defined.

(** X8.  Closing a registered participant, in a registry whose keys are
    distinct, removes that one entry and no other: the registry is one
    shorter, the key is gone, every other key reads as before, and the
    remaining keys keep their order.  The roster broadcast that follows is
    the roster of the registry without it. *)
Theorem close_removes_one_entry mt id u st :
  NoDup (map fst (users st)) ->
  assoc (uuid_text id) (users st) = Some u ->
  let st' := snd (onclose mt id st) in
  S (List.length (users st')) = List.length (users st) /\
  assoc (uuid_text id) (users st') = None /\
  (forall k, k <> uuid_text id -> assoc k (users st') = assoc k (users st)) /\
  map fst (users st')
  = filter (fun k => negb (String.eqb (uuid_text id) k)) (map fst (users st)) /\
  sent st' = sent st ++ broadcast mt st' /\
  S (List.length (roster_entries st')) = List.length (users st).
Proof.
  intros Hnd Hown st'.
  assert (users st' = delete_own (uuid_text id) (users st)
          /\ sent st' = sent st ++ broadcast mt st') as [E Es].
  { unfold st', onclose, bind, users_delete.
    rewrite sendUpdatedUserList_run. cbn. auto. }
  rewrite roster_entries_length, E. repeat split.
  - apply (length_delete_own _ _ u Hnd Hown).
  - apply assoc_delete_same.
  - intros k Hne. apply assoc_delete_other, Hne.
  - apply keys_delete_own.
  - exact Es.
  - apply (length_delete_own _ _ u Hnd Hown).
Qed.

Lemma close_removes_one_entry_witness :
  map fst (users (snd (onclose demo_types uuid_a two_connected)))
  = [uuid_text uuid_b].
Proof.
  assert (NoDup (map fst (users two_connected))) as Hnd
      by (repeat constructor; cbn; intuition discriminate).
  destruct (close_removes_one_entry demo_types uuid_a
              {| connection := Some 1;
                 userId := Some (JStr (uuid_text uuid_a));
                 userName := None |} two_connected Hnd eq_refl)
    as (_ & _ & _ & H & _).
  rewrite H. reflexivity.
Defined.

(** X9.  A connection that opens and closes leaves the registry exactly as
    it found it.  In between the newcomer was sent the
    connection-established envelope, and on its close the participants that
    were there before are sent their own unchanged roster. *)
Theorem connect_then_close_restores mt c id st :
  assoc (uuid_text id) (users st) = None ->
  let st1 := snd (on_connection mt c id st) in
  let st2 := snd (onclose mt id st1) in
  users st2 = users st /\
  users_proto st2 = users_proto st /\
  sent st2 = sent st ++
    (c, JObj [("type", JStr (signalServerConnected mt));
              ("userId", JStr (uuid_text id))])
    :: broadcast mt st.
Proof.
  intros Hnew st1 st2. unfold st2, st1.
  rewrite on_connection_run. cbn [snd].
  unfold onclose, bind, users_delete. cbn [users users_proto sent].
  rewrite sendUpdatedUserList_run. cbn [snd log users users_proto sent].
  rewrite delete_set_own_new by exact Hnew.
  unfold broadcast, userListMessage, getUserList. cbn [users].
  rewrite <- app_assoc. auto.
Qed.

Lemma connect_then_close_restores_witness :
  users (snd (onclose demo_types uuid_c
                (snd (on_connection demo_types 3 uuid_c two_connected))))
  = users two_connected.
Proof.
  apply (connect_then_close_restores demo_types 3 uuid_c two_connected).
  reflexivity.
Defined.

(** ** Invariants of the registry *)

Lemma Forall_set_own {A : Type} (P : string * A -> Prop) k v l :
  P (k, v) -> Forall P l -> Forall P (set_own k v l).
Proof.
  intros Hv Hl. unfold set_own. destruct (has_key k l).
  - induction Hl as [|[k0 v0] r H0 Hr IH]; cbn; [constructor|].
    destruct (String.eqb_spec k k0) as [<-|]; constructor; auto.
  - destruct (array_index k) as [n|].
    + induction Hl as [|[k0 v0] r H0 Hr IH]; cbn; [repeat constructor; auto|].
      destruct (array_index k0) as [n'|]; [destruct (n' <? n)%N|];
        repeat constructor; auto.
    + apply Forall_app. split; [exact Hl|repeat constructor; exact Hv].
Qed.

Lemma Forall_delete_own {A : Type} (P : string * A -> Prop) k l :
  Forall P l -> Forall P (delete_own k l).
Proof.
  induction 1 as [|[k0 v0] r H0 Hr IH]; cbn; [constructor|].
  destruct (String.eqb k k0); [exact IH|constructor; auto].
Qed.

Lemma assoc_Forall {A : Type} (P : string * A -> Prop) k l v :
  assoc k l = Some v -> Forall P l -> P (k, v).
Proof.
  intros H Hl. induction Hl as [|[k0 v0] r H0 Hr IH]; cbn in H; [discriminate|].
  destruct (String.eqb_spec k k0) as [->|]; [|auto].
  injection H as <-. exact H0.
Qed.

Lemma well_formed_live us :
  Forall well_formed_entry us -> forallb live (values us) = true.
Proof.
  induction 1 as [|[k u] r [_ Hu] Hr IH]; cbn; [reflexivity|].
  cbn in Hu. rewrite Hu. exact IH.
Qed.

Section RegistryInvariants.
Variable messageTypes : MessageTypes.
Variable JSON_parse : string -> option JSON.

(** What a message event can do to the registry. *)
Lemma onmessage_users data st :
  users (snd (onmessage messageTypes JSON_parse data st)) = users st \/
  exists k0 name,
    users (snd (onmessage messageTypes JSON_parse data st))
    = users (snd (users_assign k0
                    (with_userName (spread (users_get k0 st)) name) st)).
Proof.
  unfold onmessage, bind, or_throw.
  destruct (JSON_parse data) as [message|]; [|left; reflexivity].
  cbn [ret].
  pose proof (handleMessage_users messageTypes message st) as H. cbv zeta in H.
  destruct (handleMessage messageTypes message st) as [[]]; exact H.
Qed.

Lemma handle_keeps_keys_distinct ev st :
  NoDup (map fst (users st)) ->
  NoDup (map fst (users (snd (handle messageTypes JSON_parse ev st)))).
Proof.
  intros Hnd. destruct ev as [c id|data|id]; cbn [handle].
  - rewrite on_connection_run. cbn [snd users]. apply NoDup_set_own, Hnd.
  - destruct (onmessage_users data st) as [->|(k0 & name & ->)]; [exact Hnd|].
    destruct (users_assign_users k0
                (with_userName (spread (users_get k0 st)) name) st) as [->| ->];
      [exact Hnd|apply NoDup_set_own, Hnd].
  - unfold onclose, bind, users_delete. rewrite sendUpdatedUserList_run.
    cbn [snd log users]. apply NoDup_delete_own, Hnd.
Qed.

Lemma handle_keeps_well_formed ev st st' :
  Forall well_formed_entry (users st) ->
  handle messageTypes JSON_parse ev st = (Normal tt, st') ->
  Forall well_formed_entry (users st').
Proof.
  intros Hwf. destruct ev as [c id|data|id]; cbn [handle].
  - rewrite on_connection_run. intros [= <-]. cbn [users].
    apply Forall_set_own; [split; reflexivity|exact Hwf].
  - unfold onmessage, bind, or_throw.
    destruct (JSON_parse data) as [message|]; [|discriminate].
    cbn [ret].
    destruct (dispatches_to_join messageTypes message) eqn:Hd.
    + destruct (handleMessage_join messageTypes message st Hd) as [-> Hs].
      destruct (ToPropertyKey (peek message "senderId")) as [k0|] eqn:Hto.
      * rewrite (handleJoin_run messageTypes message _ k0 st Hs Hto).
        match goal with
        | |- context [forallb live ?us] =>
            destruct (forallb live us) eqn:E; [|discriminate]
        end.
        intros [= <-]. cbn [log users].
        revert E. unfold users_assign, users_get.
        destruct (assoc k0 (users st)) as [u|] eqn:Hown.
        -- unfold has_key. rewrite Hown, andb_false_r. cbn [snd users spread].
           intros _. apply Forall_set_own; [|exact Hwf].
           destruct (assoc_Forall _ _ _ _ Hown Hwf) as [Hid Hl].
           split; [exact Hid|exact Hl].
        -- unfold has_key. rewrite Hown. cbn [negb].
           rewrite andb_true_r.
           destruct (String.eqb k0 "__proto__"); cbn [snd users];
             [intros _; exact Hwf|].
           intros E. exfalso.
           match type of E with
           | forallb live (values (set_own _ ?g _)) = true =>
               assert (connection g = None) as Hg
                   by (destruct (users_proto st) as [v|]; [|reflexivity];
                       destruct (String.eqb k0 "userName"); [|reflexivity];
                       destruct v as [[| | | | |]|]; reflexivity);
               rewrite (not_all_live _ g
                          (assoc_In k0 _ _ (assoc_set_own_same k0 g (users st)))
                          Hg) in E
           end.
           discriminate.
      * unfold handleJoin, bind, field. rewrite Hs. cbn [or_throw ret].
        unfold property_key. rewrite Hto. discriminate.
    + intros H.
      destruct (handleMessage_not_join messageTypes message st Hd) as [E|[c E]];
        rewrite H in E; cbn [snd] in E; subst st'; exact Hwf.
  - unfold onclose, bind, users_delete.
    rewrite sendUpdatedUserList_run. cbn [users].
    destruct (forallb live (values (delete_own (uuid_text id) (users st))));
      [|discriminate].
    intros [= <-]. cbn [log users]. apply Forall_delete_own, Hwf.
Qed.
End RegistryInvariants.



(** X11.  In every state the relay reaches from the initial one without an
    uncaught exception, each entry of the registry is filed under its own
    userId and holds a connection, and the keys are distinct; a roster
    broadcast from such a state returns normally. *)
Theorem reachable_registry_is_well_formed mt (JSON_parse : string -> option JSON) evs st :
  run mt JSON_parse evs initial = (Normal tt, st) ->
  Forall well_formed_entry (users st) /\
  NoDup (map fst (users st)) /\
  fst (sendUpdatedUserList mt st) = Normal tt.
Proof.
  intros Hrun.
  assert (forall evs st0 st1,
             Forall well_formed_entry (users st0) /\ NoDup (map fst (users st0)) ->
             run mt JSON_parse evs st0 = (Normal tt, st1) ->
             Forall well_formed_entry (users st1) /\ NoDup (map fst (users st1)))
    as Hgen.
  { clear. induction evs as [|ev evs IH]; intros st0 st1 [Hwf Hnd]; cbn [run].
    - intros [= <-]. auto.
    - unfold bind.
      pose proof (handle_keeps_keys_distinct mt JSON_parse ev st0 Hnd) as Hnd'.
      destruct (handle mt JSON_parse ev st0) as [[[]|e] st'] eqn:E;
        [|discriminate].
      intros H. apply (IH st' st1); [|exact H].
      split; [|exact Hnd'].
      apply (handle_keeps_well_formed mt JSON_parse ev st0 st' Hwf E). }
  destruct (Hgen evs initial st) as [Hwf Hnd];
    [split; constructor|exact Hrun|].
  repeat split.
  - exact Hwf.
  - exact Hnd.
  - rewrite sendUpdatedUserList_run, (well_formed_live _ Hwf). reflexivity.
Qed.

Lemma reachable_registry_is_well_formed_witness :
  Forall well_formed_entry (users two_connected).
Proof.
  apply (reachable_registry_is_well_formed demo_types demo_parse
           [Connection 1 uuid_a; Connection 2 uuid_b] two_connected).
  reflexivity.
Defined.

(** ** Where the relay sends *)

Lemma deliveries_from us message p :
  In p (deliveries us message) ->
  exists u, In u us /\ connection u = Some (fst p).
Proof.
  induction us as [|u r IH]; cbn; [tauto|].
  destruct (connection u) as [c|] eqn:Hc; cbn; [|tauto].
  intros [<-|H].
  - exists u. auto.
  - destruct (IH H) as (u' & Hin & Hu'). exists u'. auto.
Qed.

Lemma sendToUser_cases k message st :
  sendToUser (users_get k st) message st = (Throw TypeError, st) \/
  exists u c,
    assoc k (users st) = Some u /\ connection u = Some c /\
    sendToUser (users_get k st) message st
    = (Normal tt, log st [(c, JSON_stringify message)]).
Proof.
  destruct (assoc k (users st)) as [u|] eqn:Hown.
  - unfold users_get. rewrite Hown. cbn. unfold connection_send.
    destruct (connection u) as [c|] eqn:Hc; [|left; reflexivity].
    right. exists u, c. auto.
  - left. apply sendToUser_not_own, Hown.
Qed.

Section Sends.
Variable messageTypes : MessageTypes.
Variable JSON_parse : string -> option JSON.

Lemma handleMessage_sends message st :
  exists l,
    sent (snd (handleMessage messageTypes message st)) = sent st ++ l /\
    to_registered (snd (handleMessage messageTypes message st)) l.
Proof.
  assert (exists l, sent st = sent st ++ l /\ to_registered st l) as Hnil
      by (exists []; split; [symmetry; apply app_nil_r|intros p []]).
  destruct (get_field message "type") as [type|] eqn:Hget;
    [|unfold handleMessage, bind, field; rewrite Hget; exact Hnil].
  destruct (ToPropertyKey type) as [key|] eqn:Hto;
    [|unfold handleMessage, bind, field, property_key; rewrite Hget;
      cbn [or_throw ret]; rewrite Hto; exact Hnil].
  rewrite (handleMessage_dispatch messageTypes message type key st Hget Hto).
  destruct (messageHandlers messageTypes key) as [[|name]|].
  - pose proof (get_field_peek _ _ _ Hget "senderId") as Hs.
    destruct (ToPropertyKey (peek message "senderId")) as [k0|] eqn:Hk0.
    + rewrite (handleJoin_run messageTypes message _ k0 st Hs Hk0).
      match goal with
      | |- context [log ?s _] => set (st1 := s)
      end.
      assert (sent st1 = sent st) as Es
          by (unfold st1, users_assign;
              destruct (String.eqb k0 "__proto__" && negb (has_key k0 (users st)));
              reflexivity).
      exists (broadcast messageTypes st1). cbn [snd log users sent].
      rewrite Es. split; [reflexivity|].
      intros p Hp. apply (deliveries_from _ _ _ Hp).
    + unfold handleJoin, bind, field. rewrite Hs. cbn [or_throw ret].
      unfold property_key. rewrite Hk0. exact Hnil.
  - unfold call_inherited.
    destruct (String.eqb name "toString" || String.eqb name "constructor");
      exact Hnil.
  - destruct (truthy (peek message "senderId") && truthy (peek message "recipientId"));
      [|exact Hnil].
    destruct (ToPropertyKey (peek message "recipientId")) as [k|]; [|exact Hnil].
    destruct (sendToUser_cases k message st) as [->|(u & c & Hown & Hc & ->)];
      [exact Hnil|].
    exists [(c, JSON_stringify message)]. split; [reflexivity|].
    intros p [<-|[]]. exists u. split; [|exact Hc].
    apply (assoc_In k), Hown.
Qed.
End Sends.

(** X12.  Handling an event only appends to the log of sends, and every
    message it appends goes to the connection of an entry that is in the
    registry when the handler is done: the relay never sends to a
    participant it has just removed, nor to a connection it does not
    hold. *)
Theorem sends_go_to_registered_connections mt (JSON_parse : string -> option JSON) ev st :
  exists l,
    sent (snd (handle mt JSON_parse ev st)) = sent st ++ l /\
    forall c message, In (c, message) l ->
      exists u, In u (values (users (snd (handle mt JSON_parse ev st)))) /\
                connection u = Some c.
Proof.
  assert (exists l,
             sent (snd (handle mt JSON_parse ev st)) = sent st ++ l /\
             to_registered (snd (handle mt JSON_parse ev st)) l) as (l & E & H).
  { destruct ev as [c id|data|id]; cbn [handle].
    - rewrite on_connection_run. cbn [snd users sent].
      eexists. split; [reflexivity|].
      intros p [<-|[]].
      exists {| connection := Some c;
                userId := Some (JStr (uuid_text id));
                userName := None |}.
      split; [|reflexivity].
      apply (assoc_In (uuid_text id)), assoc_set_own_same.
    - unfold onmessage, bind, or_throw.
      destruct (JSON_parse data) as [message|].
      + cbn [ret].
        destruct (handleMessage_sends mt message st) as (l & E & H).
        exists l. destruct (handleMessage mt message st) as [[]]; auto.
      + exists []. split; [symmetry; apply app_nil_r|intros p []].
    - unfold onclose, bind, users_delete. rewrite sendUpdatedUserList_run.
      cbn [snd log users sent].
      eexists. split; [reflexivity|].
      intros p Hp. apply (deliveries_from _ _ _ Hp). }
  exists l. split; [exact E|].
  intros c message Hin. apply (H (c, message) Hin).
Qed.

(** ** The client's envelopes *)

Lemma assoc_stamp (m : list (string * Val)) : forall o k,
  NoDup (map fst m) ->
  assoc k (fold_left (fun o p => set_own (fst p) (snd p) o) m o)
  = match assoc k m with Some v => Some v | None => assoc k o end.
Proof.
  induction m as [|[k0 v0] r IH]; intros o k Hnd; cbn; [reflexivity|].
  inversion Hnd as [|? ? Hk0 Hr]; subst.
  rewrite (IH _ k Hr).
  destruct (String.eqb_spec k k0) as [->|Hne].
  - apply assoc_None_keys in Hk0. rewrite Hk0. apply assoc_set_own_same.
  - rewrite (assoc_set_own_other k0 k) by exact Hne. reflexivity.
Qed.

(** X13.  [sendSignalMessage] hands the signaling connection one envelope
    per call: the caller's message with its fields as given, and with the
    saved user id as senderId unless the message has a senderId of its own,
    which then stands.  The client's state is otherwise untouched. *)
Theorem envelope_is_stamped_with_saved_id message cl :
  NoDup (map fst message) ->
  let cl' := snd (sendSignalMessage (Some message) cl) in
  fst (sendSignalMessage (Some message) cl) = Normal tt /\
  currentUser_userId cl' = currentUser_userId cl /\
  currentUser_userName cl' = currentUser_userName cl /\
  outbox cl' = outbox cl ++ [stamped message cl] /\
  forall k,
    assoc k (stamped message cl)
    = match assoc k message with
      | Some v => Some v
      | None => if String.eqb k "senderId" then Some (currentUser_userId cl) else None
      end.
Proof.
  intros Hnd cl'. repeat split.
  intros k. unfold stamped. rewrite (assoc_stamp message _ k Hnd). reflexivity.
Qed.

Lemma envelope_is_stamped_with_saved_id_witness :
  assoc "senderId"
    (stamped [("recipientId", Some (JStr (uuid_text uuid_b)));
              ("type", Some (JStr "offer"))]
             (snd (saveUserId
                     (JObj [("type", JStr "signalServerConnected");
                            ("userId", JStr (uuid_text uuid_a))])
                     fresh_client)))
  = Some (Some (JStr (uuid_text uuid_a))).
Proof.
  refine (let H := envelope_is_stamped_with_saved_id
                     [("recipientId", Some (JStr (uuid_text uuid_b)));
                      ("type", Some (JStr "offer"))]
                     (snd (saveUserId
                             (JObj [("type", JStr "signalServerConnected");
                                    ("userId", JStr (uuid_text uuid_a))])
                             fresh_client)) _ in _).
  destruct H as (_ & _ & _ & _ & H). rewrite H. reflexivity.
  Unshelve. repeat constructor; cbn; intuition discriminate.
Defined.

(** ** Client and relay together *)

Lemma replace_app_absent {A : Type} k (v : A) l l' :
  assoc k l = None -> replace k v (l ++ l') = l ++ replace k v l'.
Proof.
  induction l as [|[k0 v0] r IH]; cbn; [reflexivity|].
  destruct (String.eqb k k0); [discriminate|].
  intros H. rewrite IH by exact H. reflexivity.
Qed.

Lemma messageHandlers_join mt : messageHandlers mt (join mt) = Some HandleJoin.
Proof. unfold messageHandlers. rewrite String.eqb_refl. reflexivity. Qed.

(** X14.  The handshake goes through.  The relay registers a connection and
    sends it the connection-established envelope; the client saves the id
    that envelope carries and, with the name the user entered, builds a
    join envelope whose senderId is that id; handling the serialised
    envelope, the relay dispatches it to [handleJoin], which names exactly
    the entry it made for that connection and broadcasts the roster, the
    newcomer included. *)
Theorem handshake mt c id name st cl :
  assoc (uuid_text id) (users st) = None ->
  let hello := JObj [("type", JStr (signalServerConnected mt));
                     ("userId", JStr (uuid_text id))] in
  let envelope := [("senderId", Some (JStr (uuid_text id)));
                   ("type", Some (JStr (join mt)));
                   ("userName", Some (JStr name))] in
  let st1 := snd (on_connection mt c id st) in
  let cl1 := enter_userName name (snd (saveUserId hello cl)) in
  let st2 := snd (handleMessage mt (JObj (object envelope)) st1) in
  inbox c st1 = inbox c st ++ [hello] /\
  outbox (snd (sendJoinMessage mt cl1)) = outbox cl ++ [envelope] /\
  users st2 = users st ++
    [(uuid_text id, {| connection := Some c;
                       userId := Some (JStr (uuid_text id));
                       userName := Some (JStr name) |})] /\
  sent st2 = sent st1 ++ broadcast mt st2 /\
  (forallb live (values (users st)) = true ->
   fst (handleMessage mt (JObj (object envelope)) st1) = Normal tt /\
   In (c, JSON_stringify (userListMessage mt st2)) (broadcast mt st2)).
Proof.
  intros Hnew hello envelope st1 cl1 st2.
  set (user := {| connection := Some c;
                  userId := Some (JStr (uuid_text id));
                  userName := None |}).
  assert (users st1 = users st ++ [(uuid_text id, user)]) as E1.
  { unfold st1. rewrite on_connection_run. cbn [snd users].
    unfold set_own, has_key. rewrite Hnew, uuid_not_index. reflexivity. }
  assert (sent st1 = sent st ++ [(c, hello)]) as Es1
      by (unfold st1; rewrite on_connection_run; reflexivity).
  assert (assoc (uuid_text id) (users st1) = Some user) as Hown.
  { rewrite E1, assoc_app, Hnew. cbn. rewrite String.eqb_refl. reflexivity. }
  set (message := JObj (object envelope)).
  assert (handleMessage mt message st1 = handleJoin mt message st1) as Hd.
  { rewrite (handleMessage_dispatch mt message (Some (JStr (join mt))) (join mt)
               st1 eq_refl eq_refl).
    rewrite messageHandlers_join. reflexivity. }
  pose proof (handleJoin_run mt message (Some (JStr (uuid_text id)))
                (uuid_text id) st1 eq_refl eq_refl) as Hrun.
  cbv zeta in Hrun.
  assert (users st2 = users st ++
            [(uuid_text id, with_userName user (Some (JStr name)))]) as E2.
  { destruct (handleJoin_users mt message (Some (JStr (uuid_text id)))
                (uuid_text id) user st1 eq_refl eq_refl Hown) as [H _].
    cbv zeta in H. unfold st2. fold message. rewrite Hd, H, E1.
    rewrite replace_app_absent by exact Hnew.
    cbn. rewrite String.eqb_refl. reflexivity. }
  assert (sent st2 = sent st1 ++ broadcast mt st2
          /\ fst (handleMessage mt message st1)
             = if forallb live (values (users st2)) then Normal tt
               else Throw TypeError) as [Es2 Hfst].
  { unfold st2. fold message. rewrite Hd, Hrun. cbn [fst snd log users sent].
    split; [|reflexivity].
    unfold users_assign.
    destruct (String.eqb (uuid_text id) "__proto__"
              && negb (has_key (uuid_text id) (users st1))); reflexivity. }
  repeat split.
  - unfold inbox. rewrite Es1, filter_app, map_app. cbn.
    rewrite Nat.eqb_refl. reflexivity.
  - exact E2.
  - exact Es2.
  - rewrite Hfst, E2. unfold values. rewrite map_app, forallb_app.
    unfold values in H. rewrite H. reflexivity.
  - unfold broadcast. apply (deliveries_reach _ _ (with_userName user (Some (JStr name))) c).
    + rewrite E2. unfold values. rewrite map_app, forallb_app.
      unfold values in H. rewrite H. reflexivity.
    + rewrite E2. unfold values. rewrite map_app. apply in_or_app.
      right. left. reflexivity.
    + reflexivity.
Qed.

Lemma handshake_witness :
  users (snd (handleMessage demo_types
                (JObj [("senderId", JStr (uuid_text uuid_c));
                       ("type", JStr "join");
                       ("userName", JStr "Carol")])
                (snd (on_connection demo_types 3 uuid_c two_connected))))
  = users two_connected ++
    [(uuid_text uuid_c, {| connection := Some 3;
                           userId := Some (JStr (uuid_text uuid_c));
                           userName := Some (JStr "Carol") |})].
Proof.
  apply (handshake demo_types 3 uuid_c "Carol" two_connected fresh_client).
  reflexivity.
Defined.

(** X15.  A join built before the connection-established envelope has been
    handled carries the empty string the client's state starts with as its
    senderId.  The relay files it as a new entry under the empty key, with
    the name and no connection, and its roster broadcast throws a
    TypeError. *)
Theorem join_before_id_is_saved mt name st cl :
  currentUser_userId cl = Some (JStr "") ->
  assoc "" (users st) = None ->
  let envelope := [("senderId", Some (JStr ""));
                   ("type", Some (JStr (join mt)));
                   ("userName", Some (JStr name))] in
  let r := handleMessage mt (JObj (object envelope)) st in
  outbox (snd (sendJoinMessage mt (enter_userName name cl)))
  = outbox cl ++ [envelope] /\
  fst r = Throw TypeError /\
  users (snd r) = users st ++
    [("", {| connection := None; userId := None;
             userName := Some (JStr name) |})].
Proof.
  intros Hid Hnew envelope r.
  split.
  { unfold sendJoinMessage, sendSignalMessage, stamped, enter_userName.
    cbn. rewrite Hid. reflexivity. }
  set (message := JObj (object envelope)).
  assert (r = handleJoin mt message st) as ->.
  { unfold r. fold message.
    rewrite (handleMessage_dispatch mt message (Some (JStr (join mt))) (join mt)
               st eq_refl eq_refl).
    rewrite messageHandlers_join. reflexivity. }
  rewrite (handleJoin_run mt message (Some (JStr "")) "" st eq_refl eq_refl).
  cbn [fst snd log users].
  assert (users (snd (users_assign ""
             (with_userName (spread (users_get "" st)) (peek message "userName")) st))
          = users st ++
            [("", {| connection := None; userId := None;
                     userName := Some (JStr name) |})]) as E.
  { unfold users_assign, users_get, set_own, has_key. rewrite Hnew. cbn.
    destruct (users_proto st); reflexivity. }
  rewrite E. split; [|reflexivity].
  rewrite (not_all_live _ {| connection := None; userId := None;
                             userName := Some (JStr name) |}); [reflexivity| |reflexivity].
  unfold values. rewrite map_app. apply in_or_app. right. left. reflexivity.
Qed.

Lemma join_before_id_is_saved_witness :
  fst (handleMessage demo_types
         (JObj [("senderId", JStr ""); ("type", JStr "join");
                ("userName", JStr "Carol")])
         two_connected)
  = Throw TypeError.
Proof.
  apply (join_before_id_is_saved demo_types "Carol" two_connected fresh_client);
    reflexivity.
Defined.
